(** * signing_clients/apps.py: manifest and signature files of a signed JAR/XPI

    A shallow embedding of [signing_clients/apps.py] (Python 2).  Python byte
    strings are [string]s, a [dict] from strings to byte strings is an
    association list with distinct keys, exceptions are the values of [exn] and
    a call that may raise returns a [result]. *)

From Stdlib Require Import String Ascii List Bool Arith Lia.
From Stdlib Require Import Permutation Sorted DecimalString NArith.
Import ListNotations.

Open Scope list_scope.
Open Scope string_scope.

(** ** Python byte strings *)

Module Py.

Definition newline : ascii := "010"%char.
Definition nl : string := String newline "".
Definition dquote : string := String "034"%char "".

(** [str.isspace] in the C locale, which is also the regular expression
    class [\s] of Python 2 byte patterns. *)
Definition is_space (c : ascii) : bool :=
  match nat_of_ascii c with
  | 9 | 10 | 11 | 12 | 13 | 32 => true
  | _ => false
  end.

Definition lower_ascii (c : ascii) : ascii :=
  let n := nat_of_ascii c in
  if ((65 <=? n) && (n <=? 90))%nat then ascii_of_nat (n + 32) else c.

Definition upper_ascii (c : ascii) : ascii :=
  let n := nat_of_ascii c in
  if ((97 <=? n) && (n <=? 122))%nat then ascii_of_nat (n - 32) else c.

Fixpoint smap (f : ascii -> ascii) (s : string) : string :=
  match s with
  | EmptyString => EmptyString
  | String c r => String (f c) (smap f r)
  end.

(** [s.lower()] and [s.upper()] *)
Definition lower : string -> string := smap lower_ascii.
Definition upper : string -> string := smap upper_ascii.

(** [s[:n]] and [s[n:]] for [n >= 0] *)
Fixpoint take (n : nat) (s : string) : string :=
  match n, s with
  | S n', String c r => String c (take n' r)
  | _, _ => EmptyString
  end.

Fixpoint drop (n : nat) (s : string) : string :=
  match n, s with
  | S n', String _ r => drop n' r
  | _, _ => s
  end.

(** [s[-n:]] and [s[:-n]] for [n > 0] *)
Definition last_n (n : nat) (s : string) : string := drop (String.length s - n) s.
Definition but_last (n : nat) (s : string) : string := take (String.length s - n) s.

Definition nonempty (s : string) : bool :=
  match s with EmptyString => false | String _ _ => true end.

(** [s.rstrip()] *)
Fixpoint rstrip (s : string) : string :=
  match s with
  | EmptyString => EmptyString
  | String c r =>
      match rstrip r with
      | EmptyString => if is_space c then EmptyString else String c EmptyString
      | r' => String c r'
      end
  end.

(** Leading whitespace dropped: what a greedy [\s*] consumes. *)
Fixpoint skip_ws (s : string) : string :=
  match s with
  | String c r => if is_space c then skip_ws r else s
  | EmptyString => EmptyString
  end.

(** What a greedy [.*] matches: everything up to the first newline. *)
Fixpoint dot_star (s : string) : string :=
  match s with
  | String c r => if Ascii.eqb c newline then EmptyString else String c (dot_star r)
  | EmptyString => EmptyString
  end.

(** [StringIO(buf).readlines()]: the lines of [buf], each with its newline. *)
Fixpoint readlines (s : string) : list string :=
  match s with
  | EmptyString => []
  | String c r =>
      if Ascii.eqb c newline then nl :: readlines r
      else match readlines r with
           | [] => [String c EmptyString]
           | l :: ls => String c l :: ls
           end
  end.

(** ["%d" % n] *)
Definition dec (n : nat) : string := NilEmpty.string_of_uint (Nat.to_uint n).

(** [sep.join(l)] *)
Fixpoint join (sep : string) (l : list string) : string :=
  match l with
  | [] => ""
  | [x] => x
  | x :: l' => x ++ sep ++ join sep l'
  end.

(** [re.split('\s*', s)] in Python 2, where an empty match does not split:
    the pieces between the maximal runs of whitespace. *)
Fixpoint re_split_ws (s cur : string) (in_ws : bool) : list string :=
  match s with
  | EmptyString => [cur]
  | String c r =>
      if is_space c then
        if in_ws then re_split_ws r cur true
        else cur :: re_split_ws r "" true
      else re_split_ws r (cur ++ String c "") false
  end.

(** [sorted(l)] for a list of strings: a stable insertion sort on the
    byte-wise order of [str]. *)
Fixpoint insert_str (x : string) (l : list string) : list string :=
  match l with
  | [] => [x]
  | y :: l' => if String.leb x y then x :: l else y :: insert_str x l'
  end.

Fixpoint sorted (l : list string) : list string :=
  match l with
  | [] => []
  | x :: l' => insert_str x (sorted l')
  end.

(** [in] on a list of strings *)
Definition mem (x : string) (l : list string) : bool :=
  existsb (String.eqb x) l.

End Py.

(** ** Exceptions *)

Inductive exn : Type :=
| ParsingError (msg : string)
| KeyError (key : string)
| TypeError (msg : string)
| IOError (msg : string)
| BadZipfile (msg : string).

Inductive result (A : Type) : Type :=
| Ok (a : A)
| Raise (e : exn).

Arguments Ok {A} a.
Arguments Raise {A} e.

Definition bind {A B : Type} (r : result A) (k : A -> result B) : result B :=
  match r with
  | Ok a => k a
  | Raise e => Raise e
  end.

Notation "x <- r ;; k" := (bind r (fun x => k))
  (at level 61, r at next level, right associativity).

(** ** Dictionaries from strings to byte strings *)

(** The order in which a Python 2 [dict] lists its keys is not specified;
    here it is the order of the association list.  The program sorts the keys
    wherever their order shows in its output, and the statements below do not
    depend on it. *)
Definition dict : Type := list (string * string).

Definition keys (d : dict) : list string := map fst d.

Fixpoint dict_get (k : string) (d : dict) : option string :=
  match d with
  | [] => None
  | (k', v) :: d' => if String.eqb k k' then Some v else dict_get k d'
  end.

(** [d[k] = v] *)
Fixpoint dict_set (k v : string) (d : dict) : dict :=
  match d with
  | [] => [(k, v)]
  | (k', v') :: d' =>
      if String.eqb k k' then (k, v) :: d' else (k', v') :: dict_set k v d'
  end.

(** ** The [base64] module of the Python 2 standard library *)

Module Base64.

Definition alphabet : string :=
  "ABCDEFGHIJKLMNOPQRSTUVWXYZabcdefghijklmnopqrstuvwxyz0123456789+/".

Definition pad : ascii := "="%char.

(** [table_b2a_base64] *)
Definition b2a (n : nat) : ascii :=
  match String.get n alphabet with
  | Some c => c
  | None => pad
  end.

Fixpoint index_of (c : ascii) (s : string) : option nat :=
  match s with
  | EmptyString => None
  | String c' r =>
      if Ascii.eqb c c' then Some 0 else option_map S (index_of c r)
  end.

(** [table_a2b_base64], without the entry of the pad character *)
Definition a2b (c : ascii) : option nat := index_of c alphabet.

(** [b64encode(s)]: three bytes give four characters, the last group is
    padded with [=]. *)
Fixpoint b64encode (s : string) : string :=
  match s with
  | EmptyString => EmptyString
  | String x EmptyString =>
      let a := nat_of_ascii x in
      String (b2a (a / 4)) (String (b2a (a mod 4 * 16)) (String pad (String pad "")))
  | String x (String y EmptyString) =>
      let a := nat_of_ascii x in
      let b := nat_of_ascii y in
      String (b2a (a / 4)) (String (b2a (a mod 4 * 16 + b / 16))
        (String (b2a (b mod 16 * 4)) (String pad "")))
  | String x (String y (String z r)) =>
      let a := nat_of_ascii x in
      let b := nat_of_ascii y in
      let c := nat_of_ascii z in
      String (b2a (a / 4)) (String (b2a (a mod 4 * 16 + b / 16))
        (String (b2a (b mod 16 * 4 + c / 64)) (String (b2a (c mod 64))
          (b64encode r))))
  end.

Definition valid (c : ascii) : bool :=
  Ascii.eqb c pad || match a2b c with Some _ => true | None => false end.

(** [binascii_find_valid(s, num)]: the [num+1]-th valid character of [s] *)
Fixpoint find_valid (s : string) (num : nat) : option ascii :=
  match s with
  | EmptyString => None
  | String c r =>
      if valid c then
        match num with
        | 0 => Some c
        | S n => find_valid r n
        end
      else find_valid r num
  end.

Definition skipped (c : ascii) : bool :=
  (127 <? nat_of_ascii c)%nat || Ascii.eqb c "013"%char
  || Ascii.eqb c "010"%char || Ascii.eqb c " "%char.

Definition next_is_pad (s : string) : bool :=
  match find_valid s 1 with
  | Some c => Ascii.eqb c pad
  | None => false
  end.

(** The loop of [binascii.a2b_base64]; [None] is its error "Incorrect
    padding". *)
Fixpoint a2b_loop (s : string) (quad_pos leftbits leftchar : nat) (out : string)
  : option string :=
  match s with
  | EmptyString => if (leftbits =? 0)%nat then Some out else None
  | String c r =>
      if skipped c then a2b_loop r quad_pos leftbits leftchar out
      else if Ascii.eqb c pad then
        if ((quad_pos <? 2) || ((quad_pos =? 2) && negb (next_is_pad s)))%nat
        then a2b_loop r quad_pos leftbits leftchar out
        else Some out
      else
        match a2b c with
        | None => a2b_loop r quad_pos leftbits leftchar out
        | Some v =>
            let quad_pos' := ((quad_pos + 1) mod 4)%nat in
            let leftchar' := (leftchar * 64 + v)%nat in
            let leftbits' := (leftbits + 6)%nat in
            if (8 <=? leftbits')%nat then
              let lb := (leftbits' - 8)%nat in
              a2b_loop r quad_pos' lb (leftchar' mod 2 ^ lb)%nat
                (out ++ String (ascii_of_nat ((leftchar' / 2 ^ lb) mod 256)) "")
            else a2b_loop r quad_pos' leftbits' leftchar' out
        end
  end.

(** [b64decode(s)], [None] when it raises [TypeError] *)
Definition b64decode (s : string) : option string := a2b_loop s 0 0 0 "".

End Base64.

Import Base64.

(** ** The regular expressions *)

(** A literal matched at the start of [s] under [re.I]: the text matched and
    the rest of [s]. *)
Fixpoint match_nocase (pat s : string) : option (string * string) :=
  match pat, s with
  | EmptyString, _ => Some (EmptyString, s)
  | String p pat', String c s' =>
      if Ascii.eqb (Py.lower_ascii p) (Py.lower_ascii c) then
        match match_nocase pat' s' with
        | Some (m, rest) => Some (String c m, rest)
        | None => None
        end
      else None
  | String _ _, EmptyString => None
  end.

(** The alternatives of the first group of [headers_re], in the order in
    which a backtracking matcher tries them. *)
Definition headers_re_names : list string :=
  [ "Manifest-Version"; "Signature-Version"; "Name"; "Digest-Algorithms";
    "MD5-Digest-Manifest"; "MD5-Digest"; "SHA1-Digest-Manifest"; "SHA1-Digest" ].

(** The rest of [headers_re]: whitespace, a colon, whitespace, and the
    second group, which takes what is left of the line. *)
Definition headers_re_value (s : string) : option string :=
  match Py.skip_ws s with
  | String ":" r => Some (Py.dot_star (Py.skip_ws r))
  | _ => None
  end.

Fixpoint headers_re_try (alts : list string) (line : string)
  : option (string * string) :=
  match alts with
  | [] => None
  | a :: alts' =>
      match match_nocase a line with
      | Some (g1, rest) =>
          match headers_re_value rest with
          | Some g2 => Some (g1, g2)
          | None => headers_re_try alts' line
          end
      | None => headers_re_try alts' line
      end
  end.

(** [headers_re.match(line)]: groups 1 and 2 *)
Definition headers_re (line : string) : option (string * string) :=
  headers_re_try headers_re_names line.

(** [continuation_re.match(line)]: group 1 *)
Definition continuation_re (line : string) : option string :=
  match line with
  | String " " r => Some (Py.dot_star r)
  | _ => None
  end.

Definition is_sep (c : ascii) : bool :=
  Ascii.eqb c "/"%char || Ascii.eqb c "\"%char.

(** [directory_re.search(s)]: a path separator at the end of [s], or before
    a newline that ends [s] *)
Fixpoint directory_re (s : string) : bool :=
  match s with
  | EmptyString => false
  | String c r =>
      (is_sep c && (String.eqb r "" || String.eqb r Py.nl)) || directory_re r
  end.

(** ** [class Section] *)

Record Section : Type := mkSection {
  name : string;
  algos : list string;
  digests : dict
}.

(** The defaults of [Section.__init__] *)
Definition default_algos : list string := ["md5"; "sha1"].
Definition default_digests : dict := [].

(** The [while name:] loop of [Section.__str__].  Every round with a
    non-empty [name] removes at least one character of it, so
    [String.length name] rounds are enough (see [wrap_fuel]). *)
Fixpoint wrap (fuel : nat) (name entry : string) : string :=
  match fuel with
  | 0 => entry
  | S fuel' =>
      if Py.nonempty name then
        let entry := entry ++ Py.take 72 name in
        let name := Py.drop 72 name in
        let entry := if Py.nonempty name then entry ++ Py.nl ++ " " else entry in
        wrap fuel' name entry
      else entry
  end.

Definition digest_of (d : dict) (algo : string) : string :=
  match dict_get algo d with
  | Some v => v
  | None => ""
  end.

(** [Section.__str__] *)
Definition Section_str (s : Section) : string :=
  let order := Py.sorted (keys (digests s)) in
  let algos := fold_left (fun algos algo => algos ++ " " ++ Py.upper algo) order "" in
  let name := "Name: " ++ name s in
  let entry := wrap (String.length name) name "" in
  let entry := entry ++ Py.nl in
  let entry := entry ++ "Digest-Algorithms:" ++ algos ++ Py.nl in
  fold_left
    (fun entry algo =>
       entry ++ Py.upper algo ++ "-Digest: "
             ++ b64encode (digest_of (digests s) algo) ++ Py.nl)
    order entry.

(** ** [class Manifest(list)] and [class Signature(Manifest)] *)

Inductive klass : Type := KManifest | KSignature.

(** An instance: its class, the list it is, and the attributes that
    [Manifest.__init__] sets from its keyword arguments. *)
Record Manifest : Type := mkManifest {
  klass_of : klass;
  sections : list Section;
  attr_digest_manifests : option dict;
  attr_omit_individual_sections : option bool
}.

Definition version : string := "1.0".

(** [type(self).__name__.title()] *)
Definition klass_title (k : klass) : string :=
  match k with
  | KManifest => "Manifest"
  | KSignature => "Signature"
  end.

(** The instance attribute, else the class attribute of [Signature] *)
Definition digest_manifests (m : Manifest) : dict :=
  match attr_digest_manifests m with
  | Some d => d
  | None => []
  end.

Definition omit_individual_sections (m : Manifest) : bool :=
  match attr_omit_individual_sections m with
  | Some b => b
  | None => true
  end.

(** The order of Python tuples [(key, value)] *)
Definition item_leb (x y : string * string) : bool :=
  String.ltb (fst x) (fst y)
  || (String.eqb (fst x) (fst y) && String.leb (snd x) (snd y)).

Fixpoint insert_item (x : string * string) (l : dict) : dict :=
  match l with
  | [] => [x]
  | y :: l' => if item_leb x y then x :: l else y :: insert_item x l'
  end.

Fixpoint sorted_items (l : dict) : dict :=
  match l with
  | [] => []
  | x :: l' => insert_item x (sorted_items l')
  end.

(** [Signature.digest_manifest] *)
Definition digest_manifest (m : Manifest) : list string :=
  map (fun i => Py.upper (fst i) ++ "-Digest-Manifest: " ++ b64encode (snd i))
      (sorted_items (digest_manifests m)).

(** [Manifest.header] *)
Definition Manifest_header (m : Manifest) : string :=
  klass_title (klass_of m) ++ "-Version: " ++ version.

(** [self.header], resolved on the class of [m] *)
Definition header_of (m : Manifest) : string :=
  match klass_of m with
  | KManifest => Manifest_header m
  | KSignature => Py.join Py.nl (Manifest_header m :: digest_manifest m)
  end.

(** [Manifest.body] *)
Definition body (m : Manifest) : string :=
  Py.join Py.nl (map Section_str (sections m)).

(** [Manifest.__str__] *)
Definition Manifest_str (m : Manifest) : string :=
  Py.join Py.nl [header_of m; ""; body m].

(** [str(m)], resolved on the class of [m] *)
Definition str_of (m : Manifest) : string :=
  match klass_of m with
  | KManifest => Manifest_str m
  | KSignature =>
      if omit_individual_sections m then header_of m ++ Py.nl
      else Manifest_str m
  end.

(** ** [Manifest.parse] *)

(** The dictionary [item] of [parse]: its keys are ['name'], ['algos'] and
    ['digests']. *)
Record Item : Type := mkItem {
  item_name : option string;
  item_algos : option (list string);
  item_digests : option dict
}.

Definition empty_item : Item := mkItem None None None.

(** [if item:] *)
Definition item_nonempty (i : Item) : bool :=
  match item_name i, item_algos i, item_digests i with
  | None, None, None => false
  | _, _, _ => true
  end.

(** [item[key] += s], for a string [s] *)
Definition item_iadd (i : Item) (key s : string) : result Item :=
  if String.eqb key "name" then
    match item_name i with
    | Some n => Ok (mkItem (Some (n ++ s)) (item_algos i) (item_digests i))
    | None => Raise (KeyError key)
    end
  else if String.eqb key "algos" then
    match item_algos i with
    | Some _ => Raise (TypeError "can only concatenate tuple (not str) to tuple")
    | None => Raise (KeyError key)
    end
  else if String.eqb key "digests" then
    match item_digests i with
    | Some _ => Raise (TypeError "unsupported operand type(s) for +=: dict and str")
    | None => Raise (KeyError key)
    end
  else Raise (KeyError key).

(** [Section(item.pop('name'), **item)] *)
Definition section_of_item (i : Item) : result Section :=
  match item_name i with
  | None => Raise (KeyError "name")
  | Some n =>
      Ok (mkSection n
            (match item_algos i with Some a => a | None => default_algos end)
            (match item_digests i with Some d => d | None => default_digests end))
  end.

(** The local variables of [parse] *)
Record pstate : Type := mkPstate {
  kwargs : option dict;      (* [kwargs['digest_manifests']], when set *)
  items : list Section;
  item : Item;
  header : string;
  lineno : nat
}.

Definition init_pstate : pstate := mkPstate None [] empty_item "" 0.

Definition too_long_msg (lineno : nat) : string :=
  "Manifest parsing error: line too long (" ++ Py.dec lineno ++ ")".

Definition orphan_msg (lineno : nat) : string :=
  "Manifest parsing error: continued line without previous header! Line number "
  ++ Py.dec lineno.

Definition unrecognized_msg (line : string) : string :=
  "Unrecognized line format: " ++ Py.dquote ++ line ++ Py.dquote.

Definition b64decode_or_raise (value : string) : result string :=
  match b64decode value with
  | Some v => Ok v
  | None => Raise (TypeError "Incorrect padding")
  end.

(** The branches of the loop body for a header line *)
Definition parse_header (st : pstate) (lineno : nat) (g1 value : string)
  : result pstate :=
  let header := Py.lower g1 in
  if String.eqb "-version" (Py.last_n 8 header) then
    Ok (mkPstate (kwargs st) (items st) (item st) header lineno)
  else if String.eqb "-digest-manifest" (Py.last_n 16 header) then
    let dm := match kwargs st with Some d => d | None => [] end in
    v <- b64decode_or_raise value ;;
    Ok (mkPstate (Some (dict_set (Py.but_last 16 header) v dm))
                 (items st) (item st) header lineno)
  else if String.eqb "name" header then
    if directory_re value then
      Ok (mkPstate (kwargs st) (items st) (item st) header lineno)
    else
      Ok (mkPstate (kwargs st) (items st)
                   (mkItem (Some value) (item_algos (item st)) (item_digests (item st)))
                   header lineno)
  else if String.eqb "digest-algorithms" header then
    Ok (mkPstate (kwargs st) (items st)
                 (mkItem (item_name (item st))
                         (Some (Py.re_split_ws (Py.lower value) "" false))
                         (item_digests (item st)))
                 header lineno)
  else if String.eqb "-digest" (Py.last_n 7 header) then
    let d := match item_digests (item st) with Some d => d | None => [] end in
    v <- b64decode_or_raise value ;;
    Ok (mkPstate (kwargs st) (items st)
                 (mkItem (item_name (item st)) (item_algos (item st))
                         (Some (dict_set (Py.but_last 7 header) v d)))
                 header lineno)
  else Ok (mkPstate (kwargs st) (items st) (item st) header lineno).

(** One round of the [for line in ...] loop *)
Definition parse_line (st : pstate) (raw : string) : result pstate :=
  let lineno := S (lineno st) in
  let line := Py.rstrip raw in
  if (72 <? String.length line)%nat then
    Raise (ParsingError (too_long_msg lineno))
  else if negb (Py.nonempty line) then
    if item_nonempty (item st) then
      s <- section_of_item (item st) ;;
      Ok (mkPstate (kwargs st) (items st ++ [s]) empty_item "" lineno)
    else Ok (mkPstate (kwargs st) (items st) (item st) "" lineno)
  else
    match continuation_re line with
    | Some continued =>
        if negb (Py.nonempty (header st)) then
          Raise (ParsingError (orphan_msg lineno))
        else
          i <- item_iadd (item st) (header st) continued ;;
          Ok (mkPstate (kwargs st) (items st) i (header st) lineno)
    | None =>
        match headers_re line with
        | None => Raise (ParsingError (unrecognized_msg line))
        | Some (g1, value) => parse_header st lineno g1 value
        end
    end.

Fixpoint parse_loop (lines : list string) (st : pstate) : result pstate :=
  match lines with
  | [] => Ok st
  | line :: lines' =>
      st' <- parse_line st line ;;
      parse_loop lines' st'
  end.

(** [itertools.chain(fest.readlines(), "\n" * 2)] *)
Definition parse_input (buf : string) : list string :=
  Py.readlines buf ++ [Py.nl; Py.nl].

(** [klass.parse(buf)] for a string [buf] *)
Definition parse (k : klass) (buf : string) : result Manifest :=
  st <- parse_loop (parse_input buf) init_pstate ;;
  Ok (mkManifest k (items st) (kwargs st) None).

(** ** Archives and the file system *)

(** [zipfile.ZipInfo]: the name of a member *)
Record ZipInfo : Type := mkZipInfo { filename : string }.

(** An open archive: its members in stored order, each with its data.  The
    archives of the model are intact: a member that is stored can be read.
    The damaged and the encrypted members on which [zin.read] raises are not
    represented: the properties of the constructor and of [make_signed] are
    stated for calls that returned. *)
Definition archive : Type := list (ZipInfo * string).

Inductive file : Type :=
| ZipData (a : archive)
| RawData (data : string).

Definition filesystem : Type := list (string * file).

Fixpoint fs_get (path : string) (fs : filesystem) : option file :=
  match fs with
  | [] => None
  | (p, f) :: fs' => if String.eqb path p then Some f else fs_get path fs'
  end.

Fixpoint fs_set (path : string) (f : file) (fs : filesystem) : filesystem :=
  match fs with
  | [] => [(path, f)]
  | (p, f') :: fs' =>
      if String.eqb path p then (path, f) :: fs' else (p, f') :: fs_set path f fs'
  end.

(** [os.path.exists(path)] *)
Definition path_exists (path : string) (fs : filesystem) : bool :=
  match fs_get path fs with Some _ => true | None => false end.

(** [ZipFile(path, 'r')].  The message of the [IOError] shows the path as
    [repr] writes it, which is the path between quotes when its characters
    are printable and neither a quote nor a backslash. *)
Definition ZipFile_read (fs : filesystem) (path : string) : result archive :=
  match fs_get path fs with
  | None =>
      Raise (IOError ("[Errno 2] No such file or directory: '" ++ path ++ "'"))
  | Some (RawData _) => Raise (BadZipfile "File is not a zip file")
  | Some (ZipData a) => Ok a
  end.

(** [zin.filelist] and [zin.infolist()] *)
Definition filelist (zin : archive) : list ZipInfo := map fst zin.

(** [zin.read(name)]: [NameToInfo] keeps the last member of a name. *)
Fixpoint zip_read (zin : archive) (name : string) : result string :=
  match zin with
  | [] => Raise (KeyError name)
  | (i, data) :: zin' =>
      match zip_read zin' name with
      | Ok d => Ok d
      | Raise e => if String.eqb (filename i) name then Ok data else Raise e
      end
  end.

(** ** [file_key] *)

Fixpoint rstrip_slash (s : string) : string :=
  match s with
  | EmptyString => EmptyString
  | String c r =>
      match rstrip_slash r with
      | EmptyString => if Ascii.eqb c "/" then EmptyString else String c EmptyString
      | r' => String c r'
      end
  end.

(** [p[:i], p[i:]] for [i = p.rfind('/') + 1] *)
Fixpoint rsplit_slash (p : string) : string * string :=
  match p with
  | EmptyString => (EmptyString, EmptyString)
  | String c r =>
      let (h, t) := rsplit_slash r in
      if Py.nonempty h then (String c h, t)
      else if Ascii.eqb c "/" then (String c EmptyString, t)
      else (EmptyString, String c t)
  end.

(** [os.path.split(p)] of [posixpath] *)
Definition os_path_split (p : string) : string * string :=
  let (head, tail) := rsplit_slash p in
  if Py.nonempty head && negb (String.eqb (rstrip_slash head) "")
  then (rstrip_slash head, tail)
  else (head, tail).

Definition prio_of (name : string) : nat :=
  if String.eqb name "install.rdf" then 1
  else if Py.mem name ["chrome.manifest"; "icon.png"; "icon64.png"] then 2
  else if Py.mem name ["MPL"; "GPL"; "LGPL"; "COPYING"; "LICENSE"; "license.txt"]
  then 5
  else 4.

Definition file_key (zinfo : ZipInfo) : string :=
  let name := filename zinfo in
  let prio := prio_of name in
  let (head, tail) := os_path_split (Py.lower name) in
  Py.dec prio ++ "-" ++ head ++ "-" ++ tail.

(** [sorted(l, key=key)]: a stable sort on the keys *)
Fixpoint insert_by {A : Type} (key : A -> string) (x : A) (l : list A) : list A :=
  match l with
  | [] => [x]
  | y :: l' =>
      if String.leb (key x) (key y) then x :: l else y :: insert_by key x l'
  end.

Fixpoint sorted_by {A : Type} (key : A -> string) (l : list A) : list A :=
  match l with
  | [] => []
  | x :: l' => insert_by key x (sorted_by key l')
  end.

(** The order that [sorted(..., key=key)] establishes *)
Definition key_le {A : Type} (key : A -> string) (x y : A) : Prop :=
  String.leb (key x) (key y) = true.

(** ** [class JarExtractor] *)

Record JarExtractor : Type := mkJarExtractor {
  inpath : string;
  outpath : option string;
  _digests : list Section;
  omit_sections : bool;
  _manifest : option Manifest;
  _sig : option Manifest
}.

(** The truth value of an attribute that is [None] or a [Manifest]: a
    [Manifest] is a list, and an empty list is false. *)
Definition cached (c : option Manifest) : option Manifest :=
  match c with
  | Some m => match sections m with [] => None | _ :: _ => Some m end
  | None => None
  end.

(** The truth value of a path that is [None] or a string *)
Definition truthy_path (p : option string) : option string :=
  match p with
  | Some s => if Py.nonempty s then Some s else None
  | None => None
  end.

(** [a or b] on such paths *)
Definition path_or (a b : option string) : option string :=
  match truthy_path a with
  | Some s => Some s
  | None => b
  end.

Section Extractor.

(** [hashlib.md5(data).digest()] and [hashlib.sha1(data).digest()] *)
Variable md5 sha1 : string -> string.

(** [sorted(l)] on a list of [ZipInfo] objects.  The class defines no
    comparison, so Python 2 orders the objects by their addresses: the result
    is not a function of the program's data alone. *)
Variable object_sorted : list ZipInfo -> list ZipInfo.

(** [_digest(data)] *)
Definition _digest (data : string) : dict :=
  [("md5", md5 data); ("sha1", sha1 data)].

(** The body of the loop of [JarExtractor.__init__] *)
Definition digest_entry (zin : archive) (acc : list Section) (f : ZipInfo)
  : result (list Section) :=
  if directory_re (filename f) then Ok acc
  else
    data <- zip_read zin (filename f) ;;
    let digests := _digest data in
    Ok (acc ++ [mkSection (filename f) (keys digests) digests])%list.

Fixpoint digest_entries (zin : archive) (fl : list ZipInfo) (acc : list Section)
  : result (list Section) :=
  match fl with
  | [] => Ok acc
  | f :: fl' =>
      acc' <- digest_entry zin acc f ;;
      digest_entries zin fl' acc'
  end.

(** [JarExtractor(path, outpath, omit_signature_sections)] *)
Definition JarExtractor_init (fs : filesystem) (path : string)
    (outpath : option string) (omit_signature_sections : bool)
  : result JarExtractor :=
  zin <- ZipFile_read fs path ;;
  ds <- digest_entries zin (sorted_by file_key (filelist zin)) [] ;;
  Ok (mkJarExtractor path outpath ds omit_signature_sections None None).

(** [JarExtractor._sign] *)
Definition _sign (item : Section) : Section :=
  let digests := _digest (Section_str item) in
  mkSection (name item) (keys digests) digests.

(** The property [manifest]: its value and the extractor afterwards *)
Definition manifest (je : JarExtractor) : Manifest * JarExtractor :=
  match cached (_manifest je) with
  | Some m => (m, je)
  | None =>
      let m := mkManifest KManifest (_digests je) None None in
      (m, mkJarExtractor (inpath je) (outpath je) (_digests je)
                         (omit_sections je) (Some m) (_sig je))
  end.

(** The property [signatures] *)
Definition signatures (je : JarExtractor) : Manifest * JarExtractor :=
  match cached (_sig je) with
  | Some s => (s, je)
  | None =>
      let secs := map _sign (_digests je) in
      let (m, je1) := manifest je in
      let s := mkManifest KSignature secs (Some (_digest (str_of m)))
                          (Some (omit_sections je1)) in
      (s, mkJarExtractor (inpath je1) (outpath je1) (_digests je1)
                         (omit_sections je1) (_manifest je1) (Some s))
  end.

(** The property [signature] *)
Definition signature (je : JarExtractor) : string * JarExtractor :=
  let (s, je1) := signatures je in
  (header_of s ++ Py.nl, je1).

(** [zout.writestr(f, zin.read(f.filename))] for each [f] *)
Fixpoint copy_members (zin : archive) (fl : list ZipInfo) (zout : archive)
  : archive * result unit :=
  match fl with
  | [] => (zout, Ok tt)
  | f :: fl' =>
      match zip_read zin (filename f) with
      | Ok data => copy_members zin fl' (zout ++ [(f, data)])%list
      | Raise e => (zout, Raise e)
      end
  end.

(** [JarExtractor.make_signed(signature, outpath)]: what it returns or
    raises, the extractor and the file system afterwards.  Leaving the
    [with] block of [zout] writes the archive, also when the block raises.
    Creating the destination and writing to it do not fail in the model
    (the operating system can refuse both): the properties below are about
    calls that returned, or hold whatever the outcome is. *)
Definition make_signed (je : JarExtractor) (signature : string)
    (outpath_arg : option string) (fs : filesystem)
  : result unit * JarExtractor * filesystem :=
  match truthy_path (path_or outpath_arg (outpath je)) with
  | None => (Raise (IOError "No output file specified"), je, fs)
  | Some out =>
      if path_exists out fs then
        (Raise (IOError ("File already exists: " ++ out)), je, fs)
      else
        match ZipFile_read fs (inpath je) with
        | Raise e => (Raise e, je, fs)
        | Ok zin =>
            let zout := [(mkZipInfo "META-INF/zigbert.rsa", signature)] in
            match copy_members zin (object_sorted (filelist zin)) zout with
            | (zout, Raise e) => (Raise e, je, fs_set out (ZipData zout) fs)
            | (zout, Ok _) =>
                let (m, je1) := manifest je in
                let zout := (zout ++ [(mkZipInfo "META-INF/manifest.mf", str_of m)])%list in
                let (s, je2) := signatures je1 in
                let zout := (zout ++ [(mkZipInfo "META-INF/zigbert.sf", str_of s)])%list in
                (Ok tt, je2, fs_set out (ZipData zout) fs)
            end
        end
  end.

(** The extractors a program can hold: built by the constructor, then used
    through the properties and [make_signed]. *)
Inductive reachable : JarExtractor -> Prop :=
| reach_init fs path outpath omit je :
    JarExtractor_init fs path outpath omit = Ok je -> reachable je
| reach_manifest je : reachable je -> reachable (snd (manifest je))
| reach_signatures je : reachable je -> reachable (snd (signatures je))
| reach_signature je : reachable je -> reachable (snd (signature je))
| reach_make_signed je sig out fs :
    reachable je -> reachable (snd (fst (make_signed je sig out fs))).

(** The section that the constructor builds for a member that is a file *)
Definition member_data (zin : archive) (name : string) : string :=
  match zip_read zin name with
  | Ok data => data
  | Raise _ => ""
  end.

Definition section_of_member (zin : archive) (f : ZipInfo) : Section :=
  let digests := _digest (member_data zin (filename f)) in
  mkSection (filename f) (keys digests) digests.

Definition is_file (f : ZipInfo) : bool := negb (directory_re (filename f)).

(** What the properties compute from the sections of an extractor *)
Definition expected_manifest (je : JarExtractor) : Manifest :=
  mkManifest KManifest (_digests je) None None.

Definition expected_signatures (je : JarExtractor) : Manifest :=
  mkManifest KSignature (map _sign (_digests je))
             (Some (_digest (str_of (expected_manifest je))))
             (Some (omit_sections je)).

(** The cached values, when they are used, are the computed ones. *)
Definition cache_inv (je : JarExtractor) : Prop :=
  (forall m, cached (_manifest je) = Some m -> m = expected_manifest je)
  /\ (forall s, cached (_sig je) = Some s -> s = expected_signatures je).

End Extractor.

(** ** Notions used in the statements *)

(** A text given by its lines, each ended by a newline *)
Fixpoint text (lines : list string) : string :=
  match lines with
  | [] => ""
  | l :: lines' => l ++ Py.nl ++ text lines'
  end.

(** [c * n] for a one-character string [c] *)
Fixpoint str_repeat (c : ascii) (n : nat) : string :=
  match n with
  | 0 => ""
  | S n' => String c (str_repeat c n')
  end.

(** The invariant of the data model: the algorithms named by a section are
    the keys of its digests. *)
Definition section_inv (s : Section) : Prop :=
  forall a, In a (algos s) <-> In a (keys (digests s)).

(** The priority key in the words of the specification: the tuple of the
    class, the lower-cased directory and the lower-cased base name, compared
    as Python compares tuples. *)
Definition priority_key (zinfo : ZipInfo) : nat * string * string :=
  let (head, tail) := os_path_split (Py.lower (filename zinfo)) in
  (prio_of (filename zinfo), head, tail).

Definition tuple_leb (x y : nat * string * string) : bool :=
  let '(p1, d1, b1) := x in
  let '(p2, d2, b2) := y in
  (p1 <? p2)%nat
  || ((p1 =? p2)%nat
      && (String.ltb d1 d2 || (String.eqb d1 d2 && String.leb b1 b2))).

(** [needle in hay] *)
Fixpoint contains (needle hay : string) : bool :=
  String.prefix needle hay
  || match hay with
     | EmptyString => false
     | String _ hay' => contains needle hay'
     end.

(** An error message that tells the number of a line *)
Definition carries_lineno (msg : string) (n : nat) : bool :=
  contains (Py.dec n) msg.

(** The lines that [parse] refuses, given the active header [hdr] and the
    number [n] of the line: [line] is the line without its trailing white
    space, the last argument is the message of the [ParsingError]. *)
Inductive malformed (hdr : string) (n : nat) (line : string) : string -> Prop :=
| line_too_long :
    72 < String.length line ->
    malformed hdr n line (too_long_msg n)
| orphan_continuation :
    String.length line <= 72 ->
    (exists r, line = String " " r) ->
    hdr = "" ->
    malformed hdr n line (orphan_msg n)
| unrecognized_line :
    String.length line <= 72 ->
    line <> "" ->
    (forall r, line <> String " " r) ->
    headers_re line = None ->
    malformed hdr n line (unrecognized_msg line).

(** No character of [s] is white space. *)
Fixpoint no_space (s : string) : bool :=
  match s with
  | EmptyString => true
  | String c r => negb (Py.is_space c) && no_space r
  end.

(** Names that a [Name:] header carries through [str] and [parse]: no
    newline, no white space at either end, not a directory, and short enough
    for one continuation line that the parser accepts; a name that is wrapped
    breaks after a character that is neither white space nor a separator. *)
Definition name_ok (n : string) : Prop :=
  Py.dot_star n = n /\ Py.skip_ws n = n /\ Py.rstrip n = n
  /\ directory_re n = false
  /\ (String.length n <= 66
      \/ (String.length n <= 137
          /\ Py.rstrip (Py.take 66 n) = Py.take 66 n
          /\ directory_re (Py.take 66 n) = false)).

(** Digests that the format can carry: of MD5 or SHA-1 or both, each short
    enough for its line. *)
Definition digests_ok (d : dict) : Prop :=
  NoDup (keys d) /\ keys d <> []
  /\ (forall k, In k (keys d) -> k = "md5" \/ k = "sha1")
  /\ (forall k v, In (k, v) d -> String.length v <= 42).

Definition section_ok (s : Section) : Prop :=
  name_ok (name s) /\ digests_ok (digests s) /\ section_inv s.

(** Two sections with the same name, the same set of algorithms and the same
    digest of every algorithm *)
Definition same_section (s' s : Section) : Prop :=
  name s' = name s
  /\ (forall a, In a (algos s') <-> In a (algos s))
  /\ (forall k, dict_get k (digests s') = dict_get k (digests s)).

(** A line as [readlines] returns it *)
Definition with_nl (l : string) : string := l ++ Py.nl.

(** The physical lines of [str(s)] for a name of at most 137 characters *)
Definition name_lines (n : string) : list string :=
  if (String.length n <=? 66)%nat then ["Name: " ++ n]
  else ["Name: " ++ Py.take 66 n; " " ++ Py.drop 66 n].

Definition algos_line (order : list string) : string :=
  "Digest-Algorithms:" ++ String.concat "" (map (fun a => " " ++ Py.upper a) order).

Definition digest_line (d : dict) (algo : string) : string :=
  Py.upper algo ++ "-Digest: " ++ b64encode (digest_of d algo).

Definition Section_lines (s : Section) : list string :=
  let order := Py.sorted (keys (digests s)) in
  (name_lines (name s) ++ algos_line order :: map (digest_line (digests s)) order)%list.

(** The section that [parse] builds from [str(s)]: the algorithms are the
    keys of the digests in sorted order, and so are the digests. *)
Definition canon (s : Section) : Section :=
  let order := Py.sorted (keys (digests s)) in
  mkSection (name s) order (map (fun k => (k, digest_of (digests s) k)) order).

(** Stand-ins for the hash functions, of the right lengths, for examples *)
Definition sample_md5 (data : string) : string :=
  Py.take 16 (data ++ "0123456789abcdef").

Definition sample_sha1 (data : string) : string :=
  Py.take 20 (data ++ "0123456789abcdefghij").

(** Two sections, the second with a name that is wrapped *)
Definition sample_sections : list Section :=
  [ mkSection "foo.txt" ["md5"; "sha1"]
      [("md5", sample_md5 "foo"); ("sha1", sample_sha1 "foo")];
    mkSection (str_repeat "a" 100) ["sha1"] [("sha1", sample_sha1 "a")] ].

Definition sample_fs : filesystem :=
  [("in.xpi",
    ZipData [(mkZipInfo "foo.txt", "foo"); (mkZipInfo "dir/", "");
             (mkZipInfo "install.rdf", "rdf")])].

Definition sample_extractor : JarExtractor :=
  match JarExtractor_init sample_md5 sample_sha1 sample_fs "in.xpi" None false with
  | Ok je => je
  | Raise _ => mkJarExtractor "" None [] false None None
  end.

(** An order of the members that is one of those [sorted] can produce *)
Definition sample_order (l : list ZipInfo) : list ZipInfo := l.


(** * Properties *)

(** ** The extractor and its cached properties *)

Section ExtractorFacts.

Variable md5 sha1 : string -> string.
Variable object_sorted : list ZipInfo -> list ZipInfo.


Lemma manifest_digests je : _digests (snd (manifest je)) = _digests je.
Proof. unfold manifest. destruct (cached (_manifest je)); reflexivity. Qed.

Lemma manifest_omit je : omit_sections (snd (manifest je)) = omit_sections je.
Proof. unfold manifest. destruct (cached (_manifest je)); reflexivity. Qed.

Lemma manifest_value je :
  cache_inv md5 sha1 je -> fst (manifest je) = expected_manifest je.
Proof.
  intros [Hm _]. unfold manifest.
  destruct (cached (_manifest je)) as [m|] eqn:E; simpl.
  - now apply Hm.
  - reflexivity.
Qed.

Lemma cached_some (c : option Manifest) m : cached c = Some m -> c = Some m.
Proof.
  destruct c as [m'|]; simpl; [|discriminate].
  destruct (sections m'); [discriminate|]. now intros [= ->].
Qed.

Lemma manifest_inv je : cache_inv md5 sha1 je -> cache_inv md5 sha1 (snd (manifest je)).
Proof.
  intros Hinv. unfold manifest.
  destruct (cached (_manifest je)) as [m|] eqn:E; simpl; [exact Hinv|].
  destruct Hinv as [Hm Hs].
  split.
  - intros m H. apply cached_some in H. simpl in H. now injection H as <-.
  - exact Hs.
Qed.

Lemma signatures_digests je : _digests (snd (signatures md5 sha1 je)) = _digests je.
Proof.
  unfold signatures. destruct (cached (_sig je)); [reflexivity|].
  pose proof (manifest_digests je) as H.
  destruct (manifest je) as [m je1]; simpl in *. exact H.
Qed.

Lemma signatures_omit je : omit_sections (snd (signatures md5 sha1 je)) = omit_sections je.
Proof.
  unfold signatures. destruct (cached (_sig je)); [reflexivity|].
  pose proof (manifest_omit je) as H.
  destruct (manifest je) as [m je1]; simpl in *. exact H.
Qed.

Lemma signatures_value je :
  cache_inv md5 sha1 je -> fst (signatures md5 sha1 je) = expected_signatures md5 sha1 je.
Proof.
  intros Hinv. pose proof Hinv as [Hm Hs]. unfold signatures.
  destruct (cached (_sig je)) as [s|] eqn:E; simpl.
  - now apply Hs.
  - pose proof (manifest_value je Hinv) as Hv.
    pose proof (manifest_omit je) as Ho.
    destruct (manifest je) as [m je1]; simpl in *.
    unfold expected_signatures. now rewrite Hv, Ho.
Qed.

Lemma signatures_inv je : cache_inv md5 sha1 je -> cache_inv md5 sha1 (snd (signatures md5 sha1 je)).
Proof.
  intros Hinv. pose proof Hinv as [Hm Hs]. unfold signatures.
  destruct (cached (_sig je)) as [s|] eqn:E; simpl; [exact Hinv|].
  pose proof (manifest_value je Hinv) as Hv.
  pose proof (manifest_inv je Hinv) as [Hm1 _].
  pose proof (manifest_digests je) as Hd.
  pose proof (manifest_omit je) as Ho.
  destruct (manifest je) as [m je1]; simpl in *.
  split.
  - intros m' H. rewrite (Hm1 m' H). reflexivity.
  - intros s H. apply cached_some in H. simpl in H. injection H as <-.
    unfold expected_signatures, expected_manifest. simpl.
    now rewrite Hv, Ho, Hd.
Qed.

Lemma make_signed_digests je sig out fs :
  _digests (snd (fst (make_signed md5 sha1 object_sorted je sig out fs))) = _digests je
  /\ omit_sections (snd (fst (make_signed md5 sha1 object_sorted je sig out fs))) = omit_sections je.
Proof.
  unfold make_signed.
  destruct (truthy_path _); [|now split].
  destruct (path_exists _ _); [now split|].
  destruct (ZipFile_read _ _); [|now split].
  destruct (copy_members _ _ _) as [zout [[]|e]]; [|now split].
  pose proof (manifest_digests je) as Hd. pose proof (manifest_omit je) as Ho.
  destruct (manifest je) as [m je1]; simpl in *.
  pose proof (signatures_digests je1) as Hd1.
  pose proof (signatures_omit je1) as Ho1.
  destruct (signatures md5 sha1 je1) as [sg je2]; simpl in *.
  split; congruence.
Qed.

Lemma make_signed_inv je sig out fs :
  cache_inv md5 sha1 je -> cache_inv md5 sha1 (snd (fst (make_signed md5 sha1 object_sorted je sig out fs))).
Proof.
  intros Hinv. unfold make_signed.
  destruct (truthy_path _); [|exact Hinv].
  destruct (path_exists _ _); [exact Hinv|].
  destruct (ZipFile_read _ _); [|exact Hinv].
  destruct (copy_members _ _ _) as [zout [[]|e]]; [|exact Hinv].
  pose proof (manifest_inv je Hinv) as H1.
  destruct (manifest je) as [m je1]; simpl in *.
  pose proof (signatures_inv je1 H1) as H2.
  destruct (signatures md5 sha1 je1) as [sg je2]; simpl in *. exact H2.
Qed.

Lemma reachable_inv je : reachable md5 sha1 object_sorted je -> cache_inv md5 sha1 je.
Proof.
  induction 1 as [fs path outp omit je H | | | je H IH | ].
  - unfold JarExtractor_init in H.
    destruct (ZipFile_read fs path); [|discriminate]. simpl in H.
    destruct (digest_entries _ _ _ _ _); [|discriminate]. simpl in H.
    injection H as <-. split; simpl; discriminate.
  - now apply manifest_inv.
  - now apply signatures_inv.
  - unfold signature. pose proof (signatures_inv je IH) as H1.
    destruct (signatures md5 sha1 je); exact H1.
  - now apply make_signed_inv.
Qed.

End ExtractorFacts.

(** ** What the constructor builds *)

Section ConstructorFacts.

Variable md5 sha1 : string -> string.

Lemma digest_entries_spec zin fl : forall acc ds,
  digest_entries md5 sha1 zin fl acc = Ok ds ->
  ds = (acc ++ map (section_of_member md5 sha1 zin) (filter is_file fl))%list.
Proof.
  induction fl as [|f fl IH]; simpl; intros acc ds H.
  - injection H as <-. now rewrite app_nil_r.
  - unfold digest_entry, is_file in *.
    destruct (directory_re (filename f)); simpl in *.
    + now apply IH.
    + unfold section_of_member at 1, member_data.
      destruct (zip_read zin (filename f)) as [data|e]; simpl in H; [|discriminate].
      apply IH in H. rewrite H, <- app_assoc. reflexivity.
Qed.

End ConstructorFacts.

(** ** [sorted(..., key=...)] *)

Section SortedBy.

Context {A : Type} (key : A -> string).

Lemma insert_by_perm x l : Permutation (insert_by key x l) (x :: l).
Proof.
  induction l as [|y l IH]; simpl; [reflexivity|].
  destruct (String.leb (key x) (key y)); [reflexivity|].
  rewrite IH. apply perm_swap.
Qed.

Lemma sorted_by_perm l : Permutation (sorted_by key l) l.
Proof.
  induction l as [|x l IH]; simpl; [reflexivity|].
  rewrite insert_by_perm. now constructor.
Qed.

Lemma insert_by_hd x y l :
  (key_le key) y x -> HdRel (key_le key) y l -> HdRel (key_le key) y (insert_by key x l).
Proof.
  intros Hyx Hl. destruct l as [|z l]; simpl; [now constructor|].
  destruct (String.leb (key x) (key z)); constructor; [exact Hyx|].
  now inversion Hl.
Qed.

Lemma insert_by_sorted x l :
  Sorted (key_le key) l -> Sorted (key_le key) (insert_by key x l).
Proof.
  induction 1 as [|y l Hs IH Hhd]; simpl; [repeat constructor|].
  destruct (String.leb (key x) (key y)) eqn:E.
  - constructor; [now constructor|]. now constructor.
  - constructor; [exact IH|]. apply insert_by_hd; [|exact Hhd].
    destruct (String.leb_total (key x) (key y)) as [H|H]; [congruence|exact H].
Qed.

Lemma sorted_by_sorted l : Sorted (key_le key) (sorted_by key l).
Proof.
  induction l as [|x l IH]; simpl; [constructor|]. now apply insert_by_sorted.
Qed.

Lemma insert_by_stable k x l :
  filter (fun y => String.eqb (key y) k) (insert_by key x l)
  = filter (fun y => String.eqb (key y) k) (x :: l).
Proof.
  induction l as [|y l IH]; [reflexivity|]. cbn [insert_by].
  destruct (String.leb (key x) (key y)) eqn:E; [reflexivity|].
  cbn [filter] in *. rewrite IH.
  destruct (String.eqb_spec (key x) k) as [Hx|Hx]; [|reflexivity].
  destruct (String.eqb_spec (key y) k) as [Hy|Hy]; [|reflexivity].
  exfalso. rewrite Hx, <- Hy in E.
  destruct (String.leb_total (key y) (key y)); congruence.
Qed.

(** Members with the same key keep their order. *)
Lemma sorted_by_stable k l :
  filter (fun y => String.eqb (key y) k) (sorted_by key l)
  = filter (fun y => String.eqb (key y) k) l.
Proof.
  induction l as [|x l IH]; [reflexivity|]. cbn [sorted_by].
  rewrite insert_by_stable. cbn [filter]. now rewrite IH.
Qed.

End SortedBy.

Lemma JarExtractor_init_spec md5 sha1 fs path outp omit je :
  JarExtractor_init md5 sha1 fs path outp omit = Ok je ->
  exists zin,
    ZipFile_read fs path = Ok zin
    /\ je = mkJarExtractor path outp
              (map (section_of_member md5 sha1 zin)
                   (filter is_file (sorted_by file_key (filelist zin))))
              omit None None.
Proof.
  unfold JarExtractor_init. intros H.
  destruct (ZipFile_read fs path) as [zin|e]; [|discriminate]. simpl in H.
  destruct (digest_entries _ _ _ _ _) as [ds|e] eqn:E; [|discriminate].
  simpl in H. injection H as <-.
  apply digest_entries_spec in E. exists zin. split; [reflexivity|].
  now rewrite E.
Qed.

Lemma reachable_sections md5 sha1 osort je :
  reachable md5 sha1 osort je ->
  exists zin fl, _digests je = map (section_of_member md5 sha1 zin) (filter is_file fl).
Proof.
  induction 1 as [fs path outp omit je H | je H IH | je H IH | je H IH
                 | je sig out fs H IH ].
  - apply JarExtractor_init_spec in H as (zin & _ & ->). simpl. eauto.
  - now rewrite manifest_digests.
  - now rewrite signatures_digests.
  - unfold signature. pose proof (signatures_digests md5 sha1 je) as Hd.
    destruct (signatures md5 sha1 je); simpl in *. now rewrite Hd.
  - now rewrite (proj1 (make_signed_digests md5 sha1 osort je sig out fs)).
Qed.

Lemma sample_extractor_reachable :
  reachable sample_md5 sample_sha1 sample_order sample_extractor.
Proof. now apply reach_init with (fs := sample_fs) (path := "in.xpi")
                                 (outpath := None) (omit := false). Qed.

(** ** The digest chain of the signature file *)

(** C2: for every extractor, the [Signature] that the property [signatures]
    returns has as [digest_manifests] the MD5 and SHA-1 digests of the
    serialized manifest of the extractor, and its sections carry, in the
    order of the manifest's sections and under their names, the digests of
    the serialized text of those sections. *)
Theorem signatures_digest_chain md5 sha1 osort je :
  reachable md5 sha1 osort je ->
  klass_of (fst (signatures md5 sha1 je)) = KSignature
  /\ digest_manifests (fst (signatures md5 sha1 je))
     = _digest md5 sha1 (str_of (fst (manifest je)))
  /\ dict_get "md5" (digest_manifests (fst (signatures md5 sha1 je)))
     = Some (md5 (str_of (fst (manifest je))))
  /\ dict_get "sha1" (digest_manifests (fst (signatures md5 sha1 je)))
     = Some (sha1 (str_of (fst (manifest je))))
  /\ Forall2
       (fun s item =>
          name s = name item
          /\ digests s = _digest md5 sha1 (Section_str item)
          /\ dict_get "md5" (digests s) = Some (md5 (Section_str item))
          /\ dict_get "sha1" (digests s) = Some (sha1 (Section_str item)))
       (sections (fst (signatures md5 sha1 je)))
       (sections (fst (manifest je))).
Proof.
  intros Hr. apply reachable_inv in Hr.
  rewrite (signatures_value md5 sha1 je Hr), (manifest_value md5 sha1 je Hr).
  unfold expected_signatures, expected_manifest. simpl.
  repeat split.
  induction (_digests je) as [|s l IH]; simpl; constructor; [|exact IH].
  repeat split.
Qed.

Lemma signatures_digest_chain_witness :
  reachable sample_md5 sample_sha1 sample_order sample_extractor
  /\ dict_get "sha1"
       (digest_manifests (fst (signatures sample_md5 sample_sha1 sample_extractor)))
     = Some (sample_sha1 (str_of (fst (manifest sample_extractor)))).
Proof.
  split; [exact sample_extractor_reachable|].
  exact (proj1 (proj2 (proj2 (proj2
    (signatures_digest_chain sample_md5 sample_sha1 sample_order
       sample_extractor sample_extractor_reachable))))).
Defined.

(** ** The parser does not establish the invariant of sections *)


(** ** Refusing to overwrite *)

(** C10: when no destination is given, or the destination exists,
    [make_signed] raises [IOError] and leaves the file system (and the
    extractor) as they were: nothing is created at the destination. *)
Theorem make_signed_conflict md5 sha1 osort je sig out fs :
  truthy_path (path_or out (outpath je)) = None
  \/ (exists p, truthy_path (path_or out (outpath je)) = Some p
                /\ path_exists p fs = true) ->
  (make_signed md5 sha1 osort je sig out fs
   = (Raise (IOError "No output file specified"), je, fs)
   \/ exists p, path_exists p fs = true
        /\ make_signed md5 sha1 osort je sig out fs
           = (Raise (IOError ("File already exists: " ++ p)), je, fs)).
Proof.
  unfold make_signed. intros [H | (p & H & Hp)]; rewrite H.
  - now left.
  - right. exists p. now rewrite Hp.
Qed.

Lemma make_signed_conflict_witness :
  (truthy_path (path_or (Some "in.xpi") (outpath sample_extractor)) = None
   \/ (exists p, truthy_path (path_or (Some "in.xpi") (outpath sample_extractor)) = Some p
                 /\ path_exists p sample_fs = true))
  /\ snd (make_signed sample_md5 sample_sha1 sample_order sample_extractor
            "sig" (Some "in.xpi") sample_fs) = sample_fs.
Proof.
  assert (H : truthy_path (path_or (Some "in.xpi") (outpath sample_extractor)) = None
   \/ (exists p, truthy_path (path_or (Some "in.xpi") (outpath sample_extractor)) = Some p
                 /\ path_exists p sample_fs = true)).
  { right. exists "in.xpi". split; reflexivity. }
  split; [exact H|].
  destruct (make_signed_conflict sample_md5 sample_sha1 sample_order
              sample_extractor "sig" (Some "in.xpi") sample_fs H)
    as [-> | (p & _ & ->)]; reflexivity.
Defined.

(** ** The order of the sections of an extractor *)

Lemma prio_of_cases n :
  (n = "install.rdf" /\ prio_of n = 1)
  \/ (In n ["chrome.manifest"; "icon.png"; "icon64.png"] /\ prio_of n = 2)
  \/ (In n ["MPL"; "GPL"; "LGPL"; "COPYING"; "LICENSE"; "license.txt"]
      /\ prio_of n = 5)
  \/ (~ In n ["install.rdf"; "chrome.manifest"; "icon.png"; "icon64.png";
              "MPL"; "GPL"; "LGPL"; "COPYING"; "LICENSE"; "license.txt"]
      /\ prio_of n = 4).
Proof.
  unfold prio_of, Py.mem. simpl.
  repeat match goal with
  | |- context [String.eqb n ?s] =>
      destruct (String.eqb_spec n s) as [->|?];
      [simpl; tauto|]
  end.
  simpl. right. right. right. split; [|reflexivity]. intuition congruence.
Qed.

(** C7, as the program has it: the sections of an extractor are those of
    the members that are files, in the order of a stable sort of the members
    on the string [file_key] (a rearrangement of the members in which the
    keys do not decrease and members of the same key keep their order); the
    key is the class, the lower-cased directory and the lower-cased base
    name joined by [-], and is compared as a string.  The
    class is 1 for install.rdf, 2 for chrome.manifest, icon.png and
    icon64.png, 5 for the license-like names and 4 otherwise; the four members
    of the example come out in the order of the claim. *)
Theorem extractor_order md5 sha1 fs path outp omit je :
  JarExtractor_init md5 sha1 fs path outp omit = Ok je ->
  exists zin,
    ZipFile_read fs path = Ok zin
    /\ map name (_digests je)
       = map filename (filter is_file (sorted_by file_key (filelist zin)))
    /\ Permutation (sorted_by file_key (filelist zin)) (filelist zin)
    /\ Sorted (key_le file_key) (sorted_by file_key (filelist zin))
    /\ (forall k,
          filter (fun f => String.eqb (file_key f) k)
                 (sorted_by file_key (filelist zin))
          = filter (fun f => String.eqb (file_key f) k) (filelist zin))
    /\ (forall f,
          file_key f
          = Py.dec (prio_of (filename f)) ++ "-"
            ++ fst (os_path_split (Py.lower (filename f))) ++ "-"
            ++ snd (os_path_split (Py.lower (filename f))))
    /\ (forall n,
          (n = "install.rdf" /\ prio_of n = 1)
          \/ (In n ["chrome.manifest"; "icon.png"; "icon64.png"] /\ prio_of n = 2)
          \/ (In n ["MPL"; "GPL"; "LGPL"; "COPYING"; "LICENSE"; "license.txt"]
              /\ prio_of n = 5)
          \/ (~ In n ["install.rdf"; "chrome.manifest"; "icon.png"; "icon64.png";
                      "MPL"; "GPL"; "LGPL"; "COPYING"; "LICENSE"; "license.txt"]
              /\ prio_of n = 4))
    /\ map filename
         (sorted_by file_key
            (map mkZipInfo ["foo.txt"; "install.rdf"; "chrome.manifest"; "LICENSE"]))
       = ["install.rdf"; "chrome.manifest"; "foo.txt"; "LICENSE"].
Proof.
  intros H. apply JarExtractor_init_spec in H as (zin & Hz & ->).
  exists zin. split; [exact Hz|]. simpl. split.
  { rewrite map_map. reflexivity. }
  split; [apply sorted_by_perm|]. split; [apply sorted_by_sorted|].
  split; [intros k; apply sorted_by_stable|].
  split.
  { intros f. unfold file_key. now destruct (os_path_split _). }
  split; [exact prio_of_cases|reflexivity].
Qed.

Lemma extractor_order_witness :
  JarExtractor_init sample_md5 sample_sha1 sample_fs "in.xpi" None false
  = Ok sample_extractor
  /\ map name (_digests sample_extractor) = ["install.rdf"; "foo.txt"].
Proof.
  split; [reflexivity|].
  destruct (extractor_order sample_md5 sample_sha1 sample_fs "in.xpi" None false
              sample_extractor eq_refl) as (zin & Hz & Hn & _).
  injection Hz as <-. exact Hn.
Defined.

(** C7 as stated fails: the key is a string, not a tuple.  Of the members
    a/x and a!/y the tuple order puts a/x first (the directory a is below
    a!), the program puts a!/y first (the string 4-a!-y is below 4-a-x). *)
Lemma file_key_not_tuple_order :
  sorted_by file_key [mkZipInfo "a/x"; mkZipInfo "a!/y"]
  = [mkZipInfo "a!/y"; mkZipInfo "a/x"]
  /\ priority_key (mkZipInfo "a!/y") = (4, "a!", "y")
  /\ priority_key (mkZipInfo "a/x") = (4, "a", "x")
  /\ tuple_leb (priority_key (mkZipInfo "a!/y")) (priority_key (mkZipInfo "a/x"))
     = false.
Proof. repeat split. Qed.

(** ** Defects of the parser and of the serializer *)

(** C5: [parse] drops a directory entry that is a [Name:] line alone, but
    a directory entry that has digest lines makes it raise [KeyError] at the
    blank line that ends the entry. *)
Theorem parse_directory_entry_raises :
  parse KManifest (text ["Name: dir/"])
  = Ok (mkManifest KManifest [] None None)
  /\ parse KManifest (text ["Name: dir/"; "Digest-Algorithms: MD5"])
     = Raise (KeyError "name").
Proof. split; reflexivity. Qed.

(** C6: a continuation line is appended to the name after a [Name:] header
    and refused with [ParsingError] when no header is active, but after a
    header other than [Name] it makes [parse] raise [KeyError]. *)
Theorem parse_continuation_raises :
  parse KManifest (text ["Name: a"; " b"])
  = Ok (mkManifest KManifest [mkSection "ab" default_algos default_digests]
          None None)
  /\ parse KManifest (text [" b"]) = Raise (ParsingError (orphan_msg 1))
  /\ parse KManifest (text ["Digest-Algorithms: MD5"; " SHA1"])
     = Raise (KeyError "digest-algorithms").
Proof. repeat split. Qed.

(** C4: a name of 138 characters is serialized with a continuation line of
    73 characters, which [parse] refuses. *)
Theorem long_name_not_parsed :
  map String.length
      (Py.readlines
         (Section_str (mkSection (str_repeat "a" 138) ["md5"; "sha1"]
                         (_digest sample_md5 sample_sha1 "x"))))
  = [73; 74; 28; 37; 42]
  /\ parse KManifest
       (Section_str (mkSection (str_repeat "a" 138) ["md5"; "sha1"]
                       (_digest sample_md5 sample_sha1 "x")))
     = Raise (ParsingError (too_long_msg 2)).
Proof. split; vm_compute; reflexivity. Qed.

(** C1 as stated fails: a section whose digest is of another algorithm is
    serialized to a line that [parse] does not recognize. *)
Lemma roundtrip_fails_other_algorithm :
  directory_re (name (mkSection "a" ["sha256"] [("sha256", "x")])) = false
  /\ parse KManifest
       (str_of (mkManifest KManifest
                  [mkSection "a" ["sha256"] [("sha256", "x")]] None None))
     = Raise (ParsingError (unrecognized_msg "SHA256-Digest: eA==")).
Proof. split; reflexivity. Qed.

(** C8 as stated fails: the error for a line that is not recognized tells
    the line, not its number. *)
Lemma unrecognized_error_has_no_lineno :
  parse KManifest "bogus" = Raise (ParsingError (unrecognized_msg "bogus"))
  /\ parse KManifest (text [""; ""; "bogus"])
     = Raise (ParsingError (unrecognized_msg "bogus"))
  /\ carries_lineno (unrecognized_msg "bogus") 1 = false
  /\ carries_lineno (unrecognized_msg "bogus") 3 = false.
Proof. repeat split. Qed.

(** ** The errors of the parser *)

Lemma continuation_re_spec line c :
  continuation_re line = Some c
  <-> exists r, line = String " " r /\ c = Py.dot_star r.
Proof.
  destruct line as [|a r].
  - simpl. split; [discriminate|]. now intros (r & H & _).
  - destruct (Ascii.eqb_spec a " ") as [->|Hn].
    + simpl. split.
      * intros [= <-]. eauto.
      * intros (r' & [= <-] & ->). reflexivity.
    + split.
      * destruct a as [[] [] [] [] [] [] [] []]; simpl; try discriminate.
        now destruct Hn.
      * intros (r' & [= -> _] & _). now destruct Hn.
Qed.

Lemma continuation_re_none line :
  continuation_re line = None <-> forall r, line <> String " " r.
Proof.
  destruct (continuation_re line) as [c|] eqn:E.
  - apply continuation_re_spec in E as (r & -> & _).
    split; [discriminate|]. intros H. now destruct (H r).
  - split; [|reflexivity]. intros _ r ->. discriminate.
Qed.

Lemma nonempty_false s : Py.nonempty s = false <-> s = "".
Proof. destruct s; simpl; split; congruence. Qed.

Lemma section_of_item_raise i e :
  section_of_item i = Raise e -> e = KeyError "name".
Proof.
  unfold section_of_item. destruct (item_name i); [discriminate|]. now intros [= <-].
Qed.

Lemma item_iadd_raise i k s e :
  item_iadd i k s = Raise e -> forall msg, e <> ParsingError msg.
Proof.
  unfold item_iadd. intros H msg ->.
  repeat match type of H with
  | (if ?b then _ else _) = _ => destruct b
  | match ?x with _ => _ end = _ => destruct x
  end; discriminate.
Qed.

Lemma parse_header_raise st n g1 v e :
  parse_header st n g1 v = Raise e -> forall msg, e <> ParsingError msg.
Proof.
  unfold parse_header, b64decode_or_raise. intros H msg ->.
  repeat match type of H with
  | (if ?b then _ else _) = _ => destruct b
  | bind (match ?x with _ => _ end) _ = _ => destruct x; simpl in H
  end; discriminate.
Qed.

Lemma parse_header_lineno st n g1 v st' :
  parse_header st n g1 v = Ok st' -> lineno st' = n.
Proof.
  unfold parse_header, b64decode_or_raise. intros H.
  repeat match type of H with
  | (if ?b then _ else _) = _ => destruct b
  | bind (match ?x with _ => _ end) _ = _ => destruct x; simpl in H
  end; try discriminate; now injection H as <-.
Qed.

Lemma parse_line_lineno st raw st' :
  parse_line st raw = Ok st' -> lineno st' = S (lineno st).
Proof.
  unfold parse_line. intros H.
  destruct (72 <? _)%nat; [discriminate|].
  destruct (negb (Py.nonempty _)).
  { destruct (item_nonempty _).
    - destruct (section_of_item _); simpl in H; [|discriminate]. now injection H as <-.
    - now injection H as <-. }
  destruct (continuation_re _).
  { destruct (negb (Py.nonempty (header st))); [discriminate|].
    destruct (item_iadd _ _ _); simpl in H; [|discriminate]. now injection H as <-. }
  destruct (headers_re _) as [[g1 v]|]; [|discriminate].
  now apply parse_header_lineno in H.
Qed.

Lemma parse_loop_lineno pre : forall st st',
  parse_loop pre st = Ok st' -> lineno st' = lineno st + List.length pre.
Proof.
  induction pre as [|l pre IH]; simpl; intros st st' H.
  - injection H as <-. lia.
  - destruct (parse_line st l) as [st1|e] eqn:E; simpl in H; [|discriminate].
    apply IH in H. apply parse_line_lineno in E. lia.
Qed.

Lemma parse_line_error st raw msg :
  parse_line st raw = Raise (ParsingError msg)
  <-> malformed (header st) (S (lineno st)) (Py.rstrip raw) msg.
Proof.
  unfold parse_line. split.
  - intros H.
    destruct (72 <? _)%nat eqn:El.
    { injection H as <-. apply line_too_long. now apply Nat.ltb_lt. }
    apply Nat.ltb_ge in El.
    destruct (Py.nonempty (Py.rstrip raw)) eqn:En; simpl in H.
    2:{ destruct (item_nonempty _); [|discriminate].
        destruct (section_of_item _) eqn:E; simpl in H; [discriminate|].
        apply section_of_item_raise in E. congruence. }
    destruct (continuation_re _) as [c|] eqn:Ec.
    { apply continuation_re_spec in Ec as (r & Er & _).
      destruct (Py.nonempty (header st)) eqn:Eh; simpl in H.
      - destruct (item_iadd _ _ _) eqn:E; simpl in H; [discriminate|].
        injection H as ->. now destruct (item_iadd_raise _ _ _ _ E msg).
      - injection H as <-. apply orphan_continuation; eauto.
        now apply nonempty_false. }
    destruct (headers_re _) as [[g1 v]|] eqn:Eh.
    { now destruct (parse_header_raise _ _ _ _ _ H msg). }
    injection H as <-. apply unrecognized_line; auto.
    + intros E. rewrite E in En. discriminate.
    + now apply continuation_re_none.
  - intros [Hl | Hl (r & Er) Hh | Hl Hne Hc Hh].
    + apply Nat.ltb_lt in Hl. now rewrite Hl.
    + apply Nat.ltb_ge in Hl. rewrite Hl, Er, Hh. reflexivity.
    + apply Nat.ltb_ge in Hl. rewrite Hl.
      destruct (Py.nonempty (Py.rstrip raw)) eqn:En.
      2:{ apply nonempty_false in En. contradiction. }
      simpl. apply continuation_re_none in Hc. now rewrite Hc, Hh.
Qed.

Lemma parse_loop_error lines : forall st msg,
  parse_loop lines st = Raise (ParsingError msg)
  <-> exists pre raw post st',
        lines = (pre ++ raw :: post)%list
        /\ parse_loop pre st = Ok st'
        /\ malformed (header st') (S (lineno st')) (Py.rstrip raw) msg.
Proof.
  induction lines as [|l lines IH]; intros st msg; simpl.
  - split; [discriminate|]. intros (pre & raw & post & st' & H & _).
    now destruct pre.
  - split.
    + destruct (parse_line st l) as [st1|e] eqn:E; simpl.
      * intros H. apply IH in H as (pre & raw & post & st' & -> & Hp & Hm).
        exists (l :: pre), raw, post, st'. simpl. rewrite E. simpl. auto.
      * intros [= ->]. apply parse_line_error in E.
        exists [], l, lines, st. auto.
    + intros (pre & raw & post & st' & Hl & Hp & Hm).
      destruct pre as [|l' pre]; simpl in *.
      * injection Hl as -> ->. injection Hp as ->.
        apply parse_line_error in Hm. now rewrite Hm.
      * injection Hl as -> ->.
        destruct (parse_line st l') as [st1|e]; simpl in *; [|discriminate].
        apply IH. eauto 8.
Qed.

Lemma prefix_app x s : String.prefix x (x ++ s) = true.
Proof.
  induction x as [|a x IH]; simpl; [now destruct s|].
  destruct (ascii_dec a a); [exact IH|contradiction].
Qed.

Lemma contains_app p x s : contains x (p ++ x ++ s) = true.
Proof.
  induction p as [|a p IH]; simpl.
  - pose proof (prefix_app x s) as H.
    destruct (x ++ s); cbn [contains]; now rewrite H.
  - rewrite IH. apply orb_true_r.
Qed.

Lemma append_empty_r s : s ++ "" = s.
Proof. induction s as [|a s IH]; simpl; congruence. Qed.

Lemma contains_end p x : contains x (p ++ x) = true.
Proof. rewrite <- (append_empty_r x) at 2. apply contains_app. Qed.

(** C8, as the program has it: [parse] raises [ParsingError] exactly when
    it comes, without an earlier exception, to a line that without its
    trailing white space is longer than 72 characters, or is a continuation
    while no header is active, or is neither blank nor a continuation nor a
    recognized header.  The first two errors tell the 1-based number of the
    line, the third tells the line itself. *)
Theorem parse_error_iff k buf msg :
  (parse k buf = Raise (ParsingError msg)
   <-> exists pre raw post st,
         parse_input buf = (pre ++ raw :: post)%list
         /\ parse_loop pre init_pstate = Ok st
         /\ malformed (header st) (S (List.length pre)) (Py.rstrip raw) msg)
  /\ (forall n, carries_lineno (too_long_msg n) n = true)
  /\ (forall n, carries_lineno (orphan_msg n) n = true).
Proof.
  split.
  - unfold parse.
    assert (E : forall r : result pstate,
               (st <- r ;; Ok (mkManifest k (items st) (kwargs st) None))
               = Raise (ParsingError msg) <-> r = Raise (ParsingError msg)).
    { intros [st|e]; simpl; split; congruence. }
    rewrite E, parse_loop_error.
    split; intros (pre & raw & post & st & Hl & Hp & Hm);
      exists pre, raw, post, st; (split; [exact Hl|]); (split; [exact Hp|]);
      apply parse_loop_lineno in Hp; simpl in Hp; now rewrite Hp in *.
  - split; intros n; unfold carries_lineno, too_long_msg, orphan_msg.
    + apply contains_app.
    + apply contains_end.
Qed.
(** ** Base64 *)

Lemma string_ind3 (P : string -> Prop) :
  P "" ->
  (forall x, P (String x "")) ->
  (forall x y, P (String x (String y ""))) ->
  (forall x y z r, P r -> P (String x (String y (String z r)))) ->
  forall s, P s.
Proof.
  intros H0 H1 H2 H3.
  assert (H : forall s, P s /\ (forall x, P (String x s))
                        /\ (forall x y, P (String x (String y s)))).
  { induction s as [|c s (IH0 & IH1 & IH2)]; [now auto|].
    split; [apply IH1|]. split; [intros x; apply IH2|].
    intros x y. now apply H3. }
  intros s. apply H.
Qed.

Lemma b2a_table s :
  s < 64 ->
  skipped (b2a s) = false /\ Ascii.eqb (b2a s) pad = false /\ a2b (b2a s) = Some s.
Proof.
  intros H.
  assert (F : forallb
    (fun s => negb (skipped (b2a s)) && negb (Ascii.eqb (b2a s) pad)
              && match a2b (b2a s) with Some v => (v =? s)%nat | None => false end)
    (seq 0 64) = true) by (vm_compute; reflexivity).
  rewrite forallb_forall in F. specialize (F s).
  rewrite in_seq in F. specialize (F (conj (Nat.le_0_l s) H)).
  apply andb_true_iff in F as [F F3]. apply andb_true_iff in F as [F1 F2].
  apply negb_true_iff in F1, F2.
  destruct (a2b (b2a s)) as [v|]; [|discriminate].
  apply Nat.eqb_eq in F3. now subst.
Qed.

Lemma b2a_no_space n : Py.is_space (b2a n) = false.
Proof.
  do 64 (destruct n as [|n]; [reflexivity|]). reflexivity.
Qed.

Lemma a2b_loop_sextet s r q lb lc out :
  s < 64 ->
  a2b_loop (String (b2a s) r) q lb lc out
  = if (8 <=? lb + 6)%nat then
      a2b_loop r ((q + 1) mod 4) (lb + 6 - 8) ((lc * 64 + s) mod 2 ^ (lb + 6 - 8))
        (out ++ String (ascii_of_nat (((lc * 64 + s) / 2 ^ (lb + 6 - 8)) mod 256)) "")
    else a2b_loop r ((q + 1) mod 4) (lb + 6) (lc * 64 + s) out.
Proof.
  intros H. destruct (b2a_table s H) as (H1 & H2 & H3).
  cbn [a2b_loop]. now rewrite H1, H2, H3.
Qed.

Lemma app_str_assoc (a b c : string) : (a ++ b) ++ c = a ++ b ++ c.
Proof. induction a as [|x a IH]; simpl; congruence. Qed.

Lemma sextets_lt a b c :
  a < 256 -> b < 256 -> c < 256 ->
  a / 4 < 64 /\ a mod 4 * 16 + b / 16 < 64 /\ b mod 16 * 4 + c / 64 < 64
  /\ c mod 64 < 64 /\ a mod 4 * 16 < 64 /\ b mod 16 * 4 < 64.
Proof.
  intros Ha Hb Hc.
  pose proof (Nat.div_mod_eq a 4). pose proof (Nat.mod_upper_bound a 4).
  pose proof (Nat.div_mod_eq b 16). pose proof (Nat.mod_upper_bound b 16).
  pose proof (Nat.div_mod_eq c 64). pose proof (Nat.mod_upper_bound c 64).
  lia.
Qed.

Lemma byte1 a s2 :
  a < 256 -> s2 < 16 ->
  (((0 * 64 + a / 4) * 64 + (a mod 4 * 16 + s2)) / 16) mod 256 = a
  /\ ((0 * 64 + a / 4) * 64 + (a mod 4 * 16 + s2)) mod 16 = s2.
Proof.
  intros Ha Hs.
  pose proof (Nat.div_mod_eq a 4). pose proof (Nat.mod_upper_bound a 4).
  assert (E : (0 * 64 + a / 4) * 64 + (a mod 4 * 16 + s2) = s2 + a * 16) by lia.
  rewrite E, Nat.div_add, Nat.Div0.mod_add by lia.
  rewrite (Nat.div_small s2), (Nat.mod_small s2), Nat.mod_small by lia. lia.
Qed.

Lemma byte2 b hi s3 :
  b < 256 -> hi = b / 16 -> s3 < 4 ->
  ((hi * 64 + (b mod 16 * 4 + s3)) / 4) mod 256 = b
  /\ (hi * 64 + (b mod 16 * 4 + s3)) mod 4 = s3.
Proof.
  intros Hb -> Hs.
  pose proof (Nat.div_mod_eq b 16). pose proof (Nat.mod_upper_bound b 16).
  assert (E : b / 16 * 64 + (b mod 16 * 4 + s3) = s3 + b * 4) by lia.
  rewrite E, Nat.div_add, Nat.Div0.mod_add by lia.
  rewrite (Nat.div_small s3), (Nat.mod_small s3), Nat.mod_small by lia. lia.
Qed.

Lemma byte3 c hi :
  c < 256 -> hi = c / 64 ->
  ((hi * 64 + c mod 64) / 1) mod 256 = c
  /\ (hi * 64 + c mod 64) mod 1 = 0.
Proof.
  intros Hc ->.
  pose proof (Nat.div_mod_eq c 64).
  rewrite Nat.div_1_r, Nat.mod_1_r, Nat.mod_small by lia. lia.
Qed.

Lemma a2b_loop_group x y z r out :
  a2b_loop (b64encode (String x (String y (String z r)))) 0 0 0 out
  = a2b_loop (b64encode r) 0 0 0 (out ++ String x (String y (String z ""))).
Proof.
  cbn [b64encode]. cbv zeta.
  pose proof (nat_ascii_bounded x) as Hx.
  pose proof (nat_ascii_bounded y) as Hy.
  pose proof (nat_ascii_bounded z) as Hz.
  set (a := nat_of_ascii x) in *. set (b := nat_of_ascii y) in *.
  set (c := nat_of_ascii z) in *.
  destruct (sextets_lt a b c Hx Hy Hz) as (L1 & L2 & L3 & L4 & _).
  rewrite (a2b_loop_sextet _ _ 0 0 0) by exact L1.
  change (8 <=? 0 + 6)%nat with false. cbv iota.
  change ((0 + 1) mod 4) with 1. change (0 + 6) with 6.
  rewrite (a2b_loop_sextet _ _ 1 6) by exact L2.
  change (8 <=? 6 + 6)%nat with true. cbv iota.
  change ((1 + 1) mod 4) with 2. change (6 + 6 - 8) with 4. change (2 ^ 4) with 16.
  assert (Hb16 : b / 16 < 16) by (apply Nat.Div0.div_lt_upper_bound; lia).
  destruct (byte1 a (b / 16) Hx Hb16) as [E1 E2]. rewrite E1, E2.
  rewrite (a2b_loop_sextet _ _ 2 4) by exact L3.
  change (8 <=? 4 + 6)%nat with true. cbv iota.
  change ((2 + 1) mod 4) with 3. change (4 + 6 - 8) with 2. change (2 ^ 2) with 4.
  assert (Hc64 : c / 64 < 4) by (apply Nat.Div0.div_lt_upper_bound; lia).
  destruct (byte2 b (b / 16) (c / 64) Hy eq_refl Hc64) as [E3 E4]. rewrite E3, E4.
  rewrite (a2b_loop_sextet _ _ 3 2) by exact L4.
  change (8 <=? 2 + 6)%nat with true. cbv iota.
  change ((3 + 1) mod 4) with 0. change (2 + 6 - 8) with 0. change (2 ^ 0) with 1.
  destruct (byte3 c (c / 64) Hz eq_refl) as [E5 E6]. rewrite E5, E6.
  unfold a, b, c. rewrite !ascii_nat_embedding, !app_str_assoc. reflexivity.
Qed.

Lemma a2b_loop_one x out :
  a2b_loop (b64encode (String x "")) 0 0 0 out = Some (out ++ String x "").
Proof.
  cbn [b64encode]. cbv zeta.
  pose proof (nat_ascii_bounded x) as Hx.
  set (a := nat_of_ascii x) in *.
  destruct (sextets_lt a 0 0 Hx) as (L1 & _ & _ & _ & L2 & _); [lia|lia|].
  rewrite (a2b_loop_sextet _ _ 0 0 0) by exact L1.
  change (8 <=? 0 + 6)%nat with false. cbv iota.
  change ((0 + 1) mod 4) with 1. change (0 + 6) with 6.
  rewrite (a2b_loop_sextet _ _ 1 6) by exact L2.
  change (8 <=? 6 + 6)%nat with true. cbv iota.
  change ((1 + 1) mod 4) with 2. change (6 + 6 - 8) with 4. change (2 ^ 4) with 16.
  destruct (byte1 a 0 Hx) as [E1 E2]; [lia|].
  rewrite Nat.add_0_r in E1, E2. rewrite E1, E2.
  unfold a. rewrite ascii_nat_embedding. reflexivity.
Qed.

Lemma a2b_loop_two x y out :
  a2b_loop (b64encode (String x (String y ""))) 0 0 0 out
  = Some (out ++ String x (String y "")).
Proof.
  cbn [b64encode]. cbv zeta.
  pose proof (nat_ascii_bounded x) as Hx.
  pose proof (nat_ascii_bounded y) as Hy.
  set (a := nat_of_ascii x) in *. set (b := nat_of_ascii y) in *.
  destruct (sextets_lt a b 0 Hx Hy) as (L1 & L2 & _ & _ & _ & L3); [lia|].
  rewrite (a2b_loop_sextet _ _ 0 0 0) by exact L1.
  change (8 <=? 0 + 6)%nat with false. cbv iota.
  change ((0 + 1) mod 4) with 1. change (0 + 6) with 6.
  rewrite (a2b_loop_sextet _ _ 1 6) by exact L2.
  change (8 <=? 6 + 6)%nat with true. cbv iota.
  change ((1 + 1) mod 4) with 2. change (6 + 6 - 8) with 4. change (2 ^ 4) with 16.
  assert (Hb16 : b / 16 < 16) by (apply Nat.Div0.div_lt_upper_bound; lia).
  destruct (byte1 a (b / 16) Hx Hb16) as [E1 E2]. rewrite E1, E2.
  rewrite (a2b_loop_sextet _ _ 2 4) by exact L3.
  change (8 <=? 4 + 6)%nat with true. cbv iota.
  change ((2 + 1) mod 4) with 3. change (4 + 6 - 8) with 2. change (2 ^ 2) with 4.
  destruct (byte2 b (b / 16) 0 Hy eq_refl) as [E3 E4]; [lia|].
  rewrite Nat.add_0_r in E3, E4. rewrite E3, E4.
  unfold a, b. rewrite !ascii_nat_embedding, !app_str_assoc. reflexivity.
Qed.

Lemma a2b_loop_encode s : forall out,
  a2b_loop (b64encode s) 0 0 0 out = Some (out ++ s).
Proof.
  induction s as [|x|x y|x y z r IH] using string_ind3; intros out.
  - simpl. now rewrite append_empty_r.
  - apply a2b_loop_one.
  - apply a2b_loop_two.
  - rewrite a2b_loop_group, IH, app_str_assoc. reflexivity.
Qed.

(** Decoding what was encoded gives the bytes back. *)
Lemma b64decode_b64encode s : b64decode (b64encode s) = Some s.
Proof. unfold b64decode. now rewrite a2b_loop_encode. Qed.

Lemma b64encode_no_space s : no_space (b64encode s) = true.
Proof.
  induction s as [|x|x y|x y z r IH] using string_ind3;
    cbn [b64encode]; cbv zeta; cbn [no_space];
    rewrite ?b2a_no_space, ?IH; reflexivity.
Qed.

Lemma b64encode_length s :
  3 * String.length (b64encode s) <= 4 * (String.length s + 2).
Proof.
  induction s as [|x|x y|x y z r IH] using string_ind3;
    cbn [b64encode]; cbv zeta; cbn [String.length]; lia.
Qed.

Lemma b64encode_nonempty s : s <> "" -> b64encode s <> "".
Proof.
  destruct s as [|x [|y [|z r]]]; [congruence| | |]; intros _; discriminate.
Qed.
(** ** Strings *)

Lemma length_app (a b : string) :
  String.length (a ++ b) = String.length a + String.length b.
Proof. induction a as [|x a IH]; simpl; congruence. Qed.

Lemma take_all n s : String.length s <= n -> Py.take n s = s.
Proof.
  revert n. induction s as [|x s IH]; intros [|n]; simpl; intros H;
    try reflexivity; try lia.
  f_equal. apply IH. lia.
Qed.

Lemma drop_all n s : String.length s <= n -> Py.drop n s = "".
Proof.
  revert n. induction s as [|x s IH]; intros [|n]; simpl; intros H;
    try reflexivity; try lia.
  apply IH. lia.
Qed.

Lemma take_drop n s : Py.take n s ++ Py.drop n s = s.
Proof.
  revert s. induction n as [|n IH]; intros [|x s]; simpl; try reflexivity.
  now rewrite IH.
Qed.

Lemma drop_length n s : String.length (Py.drop n s) = String.length s - n.
Proof.
  revert s. induction n as [|n IH]; intros [|x s]; simpl; try reflexivity.
  apply IH.
Qed.

Lemma wrap_empty fuel entry : wrap fuel "" entry = entry.
Proof. now destruct fuel. Qed.

Lemma nonempty_length s : Py.nonempty s = true <-> 0 < String.length s.
Proof. destruct s; simpl; split; intros; try lia; congruence. Qed.

Lemma wrap_short l :
  String.length l <= 72 -> wrap (String.length l) l "" = l.
Proof.
  intros H. destruct l as [|c l]; [reflexivity|].
  cbn [String.length wrap Py.nonempty].
  rewrite (take_all 72 _ H), (drop_all 72 _ H). cbn [Py.nonempty].
  now rewrite wrap_empty.
Qed.

Lemma wrap_two l :
  72 < String.length l -> String.length l <= 144 ->
  wrap (String.length l) l "" = Py.take 72 l ++ Py.nl ++ " " ++ Py.drop 72 l.
Proof.
  intros H1 H2.
  assert (Hd : String.length (Py.drop 72 l) <= 72) by (rewrite drop_length; lia).
  assert (Hn : Py.nonempty (Py.drop 72 l) = true)
    by (apply nonempty_length; rewrite drop_length; lia).
  assert (Hl : Py.nonempty l = true) by (apply nonempty_length; lia).
  destruct (String.length l) as [|[|k]] eqn:Ek; [lia|lia|].
  cbn [wrap]. rewrite Hl, Hn.
  rewrite (take_all 72 _ Hd), (drop_all 72 _ Hd). cbn [Py.nonempty].
  rewrite wrap_empty. cbn [append]. now rewrite !app_str_assoc.
Qed.

Lemma take_app p s k :
  Py.take (String.length p + k) (p ++ s) = p ++ Py.take k s.
Proof. induction p as [|c p IH]; simpl; congruence. Qed.

Lemma drop_app p s k :
  Py.drop (String.length p + k) (p ++ s) = Py.drop k s.
Proof. induction p as [|c p IH]; simpl; congruence. Qed.

Lemma wrap_name n :
  String.length n <= 137 ->
  wrap (String.length ("Name: " ++ n)) ("Name: " ++ n) "" ++ Py.nl
  = text (name_lines n).
Proof.
  intros H. unfold name_lines.
  pose proof (length_app "Name: " n) as Hl. cbn [String.length] in Hl.
  destruct (String.length n <=? 66)%nat eqn:E.
  - apply Nat.leb_le in E. rewrite wrap_short by lia.
    cbn [text]. now rewrite append_empty_r.
  - apply Nat.leb_gt in E. rewrite wrap_two by lia.
    change 72 with (String.length "Name: " + 66).
    rewrite take_app, drop_app. cbn [text].
    now rewrite !app_str_assoc, append_empty_r.
Qed.

Lemma fold_left_app_str {A} (f : A -> string) l : forall e,
  fold_left (fun e a => e ++ f a) l e = e ++ String.concat "" (map f l).
Proof.
  induction l as [|a l IH]; intros e; simpl.
  - now rewrite append_empty_r.
  - rewrite IH.
    destruct (map f l) eqn:Em.
    + destruct l; [|discriminate]. simpl. now rewrite !append_empty_r.
    + rewrite <- Em. clear Em. rewrite app_str_assoc. f_equal.
Qed.

Lemma concat_empty_map {A} (f : A -> string) l :
  String.concat "" (map f l) = fold_right (fun a r => f a ++ r) "" l.
Proof.
  induction l as [|a l IH]; [reflexivity|].
  cbn [map fold_right]. rewrite <- IH.
  destruct l; simpl; [now rewrite append_empty_r|reflexivity].
Qed.

Lemma text_app l1 l2 : text (l1 ++ l2) = text l1 ++ text l2.
Proof.
  induction l1 as [|a l1 IH]; simpl; [reflexivity|].
  now rewrite IH, !app_str_assoc.
Qed.

Lemma digest_text d order :
  String.concat ""
    (map (fun a => Py.upper a ++ "-Digest: " ++ b64encode (digest_of d a) ++ Py.nl)
         order)
  = text (map (digest_line d) order).
Proof.
  rewrite concat_empty_map. induction order as [|a order IH]; [reflexivity|].
  cbn [map fold_right text]. unfold digest_line at 1.
  now rewrite IH, !app_str_assoc.
Qed.

Lemma Section_str_lines s :
  String.length (name s) <= 137 ->
  Section_str s = text (Section_lines s).
Proof.
  intros H. unfold Section_str, Section_lines. cbv zeta.
  set (order := Py.sorted (keys (digests s))).
  rewrite (fold_left_app_str (fun a => " " ++ Py.upper a)).
  rewrite (fold_left_app_str
             (fun a => Py.upper a ++ "-Digest: "
                       ++ b64encode (digest_of (digests s) a) ++ Py.nl)).
  rewrite digest_text, text_app, <- wrap_name by exact H.
  cbn [text]. unfold algos_line.
  rewrite !app_str_assoc. reflexivity.
Qed.
(** ** Lines *)

Lemma rstrip_app a b :
  Py.rstrip (a ++ b)
  = match Py.rstrip b with "" => Py.rstrip a | String _ _ => a ++ Py.rstrip b end.
Proof.
  induction a as [|x a IH]; cbn [append Py.rstrip].
  - now destruct (Py.rstrip b).
  - rewrite IH. destruct (Py.rstrip b) as [|y r]; [reflexivity|].
    destruct a; reflexivity.
Qed.

Lemma rstrip_nl l : Py.rstrip (l ++ Py.nl) = Py.rstrip l.
Proof. now rewrite rstrip_app. Qed.

Lemma parse_line_nl st l : parse_line st (l ++ Py.nl) = parse_line st l.
Proof. unfold parse_line. now rewrite rstrip_nl. Qed.

Lemma no_space_rstrip s : no_space s = true -> Py.rstrip s = s.
Proof.
  induction s as [|c s IH]; [reflexivity|]. cbn [no_space Py.rstrip].
  intros H. apply andb_true_iff in H as [Hc Hs]. apply negb_true_iff in Hc.
  rewrite (IH Hs), Hc. now destruct s.
Qed.

Lemma no_space_skip_ws s : no_space s = true -> Py.skip_ws s = s.
Proof.
  destruct s as [|c s]; [reflexivity|]. cbn [no_space Py.skip_ws].
  intros H. apply andb_true_iff in H as [Hc Hs]. apply negb_true_iff in Hc.
  now rewrite Hc.
Qed.

Lemma is_space_newline c : Ascii.eqb c Py.newline = true -> Py.is_space c = true.
Proof. intros H. apply Ascii.eqb_eq in H. now subst. Qed.

Lemma no_space_dot_star s : no_space s = true -> Py.dot_star s = s.
Proof.
  induction s as [|c s IH]; [reflexivity|]. cbn [no_space Py.dot_star].
  intros H. apply andb_true_iff in H as [Hc Hs]. apply negb_true_iff in Hc.
  destruct (Ascii.eqb c Py.newline) eqn:E.
  - apply is_space_newline in E. congruence.
  - now rewrite (IH Hs).
Qed.

Lemma dot_star_app a b :
  Py.dot_star a = a -> Py.dot_star (a ++ b) = a ++ Py.dot_star b.
Proof.
  induction a as [|c a IH]; [reflexivity|]. cbn [append Py.dot_star].
  destruct (Ascii.eqb c Py.newline); [discriminate|].
  intros [= H]. now rewrite (IH H).
Qed.

Lemma readlines_line l rest :
  Py.dot_star l = l ->
  Py.readlines (l ++ Py.nl ++ rest) = (l ++ Py.nl) :: Py.readlines rest.
Proof.
  induction l as [|c l IH]; [reflexivity|]. cbn [append Py.dot_star Py.readlines].
  destruct (Ascii.eqb c Py.newline); [discriminate|].
  intros [= H]. now rewrite (IH H).
Qed.

Lemma readlines_text lines rest :
  Forall (fun l => Py.dot_star l = l) lines ->
  Py.readlines (text lines ++ rest)
  = (map with_nl lines ++ Py.readlines rest)%list.
Proof.
  induction 1 as [|l lines Hl _ IH]; [reflexivity|].
  cbn [text map app]. rewrite !app_str_assoc, readlines_line by exact Hl.
  now rewrite IH.
Qed.

Lemma dot_star_take n s : Py.dot_star s = s -> Py.dot_star (Py.take n s) = Py.take n s.
Proof.
  revert s. induction n as [|n IH]; intros [|c s]; try reflexivity.
  cbn [Py.take Py.dot_star]. destruct (Ascii.eqb c Py.newline); [discriminate|].
  intros [= H]. now rewrite (IH s H).
Qed.

Lemma dot_star_drop n s : Py.dot_star s = s -> Py.dot_star (Py.drop n s) = Py.drop n s.
Proof.
  revert s. induction n as [|n IH]; intros [|c s]; try (intros; assumption).
  cbn [Py.drop Py.dot_star]. destruct (Ascii.eqb c Py.newline); [discriminate|].
  intros [= H]. now apply IH.
Qed.

Lemma skip_ws_take n s :
  Py.skip_ws s = s -> Py.skip_ws (Py.take (S n) s) = Py.take (S n) s.
Proof.
  destruct s as [|c s]; [reflexivity|]. cbn [Py.take Py.skip_ws].
  destruct (Py.is_space c); [|reflexivity].
  intros H. exfalso.
  assert (L : forall t, String.length (Py.skip_ws t) <= String.length t).
  { induction t as [|x t IHt]; [reflexivity|]. cbn [Py.skip_ws].
    destruct (Py.is_space x); simpl; lia. }
  pose proof (L s) as Hs. rewrite H in Hs. simpl in Hs. lia.
Qed.

Lemma rstrip_drop n s : Py.rstrip s = s -> Py.rstrip (Py.drop n s) = Py.drop n s.
Proof.
  revert s. induction n as [|n IH]; intros [|c s]; try (intros; assumption).
  cbn [Py.drop Py.rstrip]. intros H. apply IH.
  destruct (Py.rstrip s) as [|y r] eqn:E.
  - destruct (Py.is_space c); [discriminate|]. now injection H.
  - now injection H.
Qed.

(** ** The parser on the lines of a serialized section *)

Lemma headers_re_name v :
  headers_re ("Name: " ++ v) = Some ("Name", Py.dot_star (Py.skip_ws v)).
Proof. reflexivity. Qed.

Lemma headers_re_md5 v :
  headers_re ("MD5-Digest: " ++ v) = Some ("MD5-Digest", Py.dot_star (Py.skip_ws v)).
Proof. reflexivity. Qed.

Lemma headers_re_sha1 v :
  headers_re ("SHA1-Digest: " ++ v) = Some ("SHA1-Digest", Py.dot_star (Py.skip_ws v)).
Proof. reflexivity. Qed.

Lemma rstrip_prefix p v :
  v <> "" -> Py.rstrip v = v -> Py.rstrip (p ++ v) = p ++ v.
Proof.
  intros Hne Hv. rewrite rstrip_app, Hv. destruct v; [contradiction|reflexivity].
Qed.

Lemma length_le_ltb n s : String.length s <= n -> (n <? String.length s)%nat = false.
Proof. intros H. now apply Nat.ltb_ge. Qed.

Lemma parse_name_line st v :
  Py.dot_star v = v -> Py.skip_ws v = v -> Py.rstrip v = v ->
  directory_re v = false -> String.length v <= 66 ->
  parse_line st ("Name: " ++ v)
  = Ok (mkPstate (kwargs st) (items st)
          (mkItem (Some v) (item_algos (item st)) (item_digests (item st)))
          "name" (S (lineno st))).
Proof.
  intros Hd Hs Hr Hdir Hl.
  destruct v as [|c v]; [reflexivity|].
  unfold parse_line. rewrite rstrip_prefix by (congruence || exact Hr).
  rewrite length_le_ltb by (rewrite length_app; simpl in *; lia).
  change (Py.nonempty ("Name: " ++ String c v)) with true. cbn [negb].
  change (continuation_re ("Name: " ++ String c v)) with (@None string).
  rewrite headers_re_name, Hs, Hd.
  unfold parse_header.
  change (Py.lower "Name") with "name". cbn [String.eqb Py.last_n].
  change (String.eqb "-version" (Py.last_n 8 "name")) with false.
  change (String.eqb "-digest-manifest" (Py.last_n 16 "name")) with false.
  change (String.eqb "name" "name") with true. cbv iota.
  now rewrite Hdir.
Qed.

Lemma parse_continuation_line st n0 v :
  item_name (item st) = Some n0 -> header st = "name" ->
  Py.dot_star v = v -> Py.rstrip v = v -> v <> "" -> String.length v <= 71 ->
  parse_line st (" " ++ v)
  = Ok (mkPstate (kwargs st) (items st)
          (mkItem (Some (n0 ++ v)) (item_algos (item st)) (item_digests (item st)))
          "name" (S (lineno st))).
Proof.
  intros Hn Hh Hd Hr Hne Hl.
  unfold parse_line. rewrite rstrip_prefix by assumption.
  rewrite length_le_ltb by (rewrite length_app; simpl in *; lia).
  change (Py.nonempty (" " ++ v)) with true. cbn [negb].
  change (continuation_re (" " ++ v)) with (Some (Py.dot_star v)).
  rewrite Hh, Hd. cbn [Py.nonempty negb].
  unfold item_iadd. cbn [String.eqb]. change (String.eqb "name" "name") with true.
  cbv iota. rewrite Hn. reflexivity.
Qed.

Lemma b64encode_line_facts v :
  v <> "" -> String.length v <= 42 ->
  b64encode v <> "" /\ Py.rstrip (b64encode v) = b64encode v
  /\ Py.skip_ws (b64encode v) = b64encode v
  /\ Py.dot_star (b64encode v) = b64encode v
  /\ String.length (b64encode v) <= 58.
Proof.
  intros Hne Hl. pose proof (b64encode_no_space v) as Hs.
  pose proof (b64encode_length v) as Hlen.
  split; [now apply b64encode_nonempty|].
  split; [now apply no_space_rstrip|]. split; [now apply no_space_skip_ws|].
  split; [now apply no_space_dot_star|]. lia.
Qed.

Lemma parse_md5_line st v :
  String.length v <= 42 ->
  parse_line st ("MD5-Digest: " ++ b64encode v)
  = Ok (mkPstate (kwargs st) (items st)
          (mkItem (item_name (item st)) (item_algos (item st))
             (Some (dict_set "md5" v
                      match item_digests (item st) with Some d => d | None => [] end)))
          "md5-digest" (S (lineno st))).
Proof.
  intros Hl. destruct (string_dec v "") as [->|Hne]; [reflexivity|].
  destruct (b64encode_line_facts v Hne Hl) as (He & Hr & Hs & Hd & Hlen).
  unfold parse_line. rewrite rstrip_prefix by assumption.
  rewrite length_le_ltb by (rewrite length_app; simpl; lia).
  change (Py.nonempty ("MD5-Digest: " ++ b64encode v)) with true. cbn [negb].
  change (continuation_re ("MD5-Digest: " ++ b64encode v)) with (@None string).
  rewrite headers_re_md5, Hs, Hd.
  unfold parse_header, b64decode_or_raise. rewrite b64decode_b64encode.
  reflexivity.
Qed.

Lemma parse_sha1_line st v :
  String.length v <= 42 ->
  parse_line st ("SHA1-Digest: " ++ b64encode v)
  = Ok (mkPstate (kwargs st) (items st)
          (mkItem (item_name (item st)) (item_algos (item st))
             (Some (dict_set "sha1" v
                      match item_digests (item st) with Some d => d | None => [] end)))
          "sha1-digest" (S (lineno st))).
Proof.
  intros Hl. destruct (string_dec v "") as [->|Hne]; [reflexivity|].
  destruct (b64encode_line_facts v Hne Hl) as (He & Hr & Hs & Hd & Hlen).
  unfold parse_line. rewrite rstrip_prefix by assumption.
  rewrite length_le_ltb by (rewrite length_app; simpl; lia).
  change (Py.nonempty ("SHA1-Digest: " ++ b64encode v)) with true. cbn [negb].
  change (continuation_re ("SHA1-Digest: " ++ b64encode v)) with (@None string).
  rewrite headers_re_sha1, Hs, Hd.
  unfold parse_header, b64decode_or_raise. rewrite b64decode_b64encode.
  reflexivity.
Qed.

Lemma parse_algos_line st order :
  order = ["md5"] \/ order = ["sha1"] \/ order = ["md5"; "sha1"] ->
  parse_line st (algos_line order)
  = Ok (mkPstate (kwargs st) (items st)
          (mkItem (item_name (item st)) (Some order) (item_digests (item st)))
          "digest-algorithms" (S (lineno st))).
Proof. intros [-> | [-> | ->]]; reflexivity. Qed.

Lemma parse_blank_line st n al d :
  item st = mkItem (Some n) (Some al) (Some d) ->
  parse_line st ""
  = Ok (mkPstate (kwargs st) (items st ++ [mkSection n al d]) empty_item ""
          (S (lineno st))).
Proof. intros H. unfold parse_line. cbn. rewrite H. reflexivity. Qed.

Lemma parse_name_lines st n rest :
  name_ok n -> item st = empty_item ->
  exists k,
    parse_loop (map with_nl (name_lines n) ++ rest)%list st
    = parse_loop rest
        (mkPstate (kwargs st) (items st) (mkItem (Some n) None None) "name" k).
Proof.
  intros (Hd & Hs & Hr & Hdir & Hlen) Hi. unfold name_lines.
  destruct (String.length n <=? 66)%nat eqn:E.
  - apply Nat.leb_le in E. cbn [map app parse_loop]. unfold with_nl.
    rewrite parse_line_nl, parse_name_line by assumption.
    rewrite Hi. cbn [bind item_algos item_digests empty_item]. eauto.
  - apply Nat.leb_gt in E. destruct Hlen as [Hlen | (Hlen & Hr' & Hdir')]; [lia|].
    cbn [map app parse_loop]. unfold with_nl.
    rewrite parse_line_nl, parse_name_line;
      [|now apply dot_star_take|now apply skip_ws_take|assumption|assumption|].
    2:{ pose proof (take_drop 66 n) as Htd.
        apply (f_equal String.length) in Htd.
        rewrite length_app, drop_length in Htd. lia. }
    cbn [bind].
    rewrite parse_line_nl, (parse_continuation_line _ (Py.take 66 n));
      [|reflexivity|reflexivity|now apply dot_star_drop|now apply rstrip_drop| |].
    2:{ intros H0. pose proof (drop_length 66 n) as Hdl. rewrite H0 in Hdl.
        simpl in Hdl. lia. }
    2:{ rewrite drop_length. lia. }
    cbn [bind kwargs items item item_algos item_digests].
    rewrite take_drop, Hi. cbn [item_algos item_digests empty_item]. eauto.
Qed.
(** ** Round trip *)

Lemma digests_shape d :
  digests_ok d ->
  (exists a, d = [("md5", a)] /\ String.length a <= 42)
  \/ (exists b, d = [("sha1", b)] /\ String.length b <= 42)
  \/ (exists a b, d = [("md5", a); ("sha1", b)]
                  /\ String.length a <= 42 /\ String.length b <= 42)
  \/ (exists a b, d = [("sha1", b); ("md5", a)]
                  /\ String.length a <= 42 /\ String.length b <= 42).
Proof.
  intros (Hnd & Hne & Hk & Hl).
  destruct d as [|[k1 v1] d]; [now destruct Hne|].
  assert (L1 : String.length v1 <= 42) by (apply (Hl k1); now left).
  assert (K1 : k1 = "md5" \/ k1 = "sha1") by (apply Hk; now left).
  destruct d as [|[k2 v2] d].
  { destruct K1 as [-> | ->]; [left|right; left]; eauto. }
  assert (L2 : String.length v2 <= 42) by (apply (Hl k2); right; now left).
  assert (K2 : k2 = "md5" \/ k2 = "sha1") by (apply Hk; right; now left).
  simpl in Hnd. inversion Hnd as [|? ? N1 Hnd']; subst.
  inversion Hnd' as [|? ? N2 Hnd'']; subst.
  destruct d as [|[k3 v3] d].
  { destruct K1 as [-> | ->], K2 as [-> | ->];
      try (exfalso; apply N1; now left).
    - right. right. left. eauto.
    - right. right. right. eauto. }
  exfalso.
  assert (K3 : k3 = "md5" \/ k3 = "sha1") by (apply Hk; right; right; now left).
  simpl in N1, N2.
  destruct K1 as [-> | ->], K2 as [-> | ->], K3 as [-> | ->]; tauto.
Qed.

Lemma parse_md5_digest_line st d :
  String.length (digest_of d "md5") <= 42 ->
  parse_line st (digest_line d "md5")
  = Ok (mkPstate (kwargs st) (items st)
          (mkItem (item_name (item st)) (item_algos (item st))
             (Some (dict_set "md5" (digest_of d "md5")
                      match item_digests (item st) with Some d => d | None => [] end)))
          "md5-digest" (S (lineno st))).
Proof. exact (parse_md5_line st (digest_of d "md5")). Qed.

Lemma parse_sha1_digest_line st d :
  String.length (digest_of d "sha1") <= 42 ->
  parse_line st (digest_line d "sha1")
  = Ok (mkPstate (kwargs st) (items st)
          (mkItem (item_name (item st)) (item_algos (item st))
             (Some (dict_set "sha1" (digest_of d "sha1")
                      match item_digests (item st) with Some d => d | None => [] end)))
          "sha1-digest" (S (lineno st))).
Proof. exact (parse_sha1_line st (digest_of d "sha1")). Qed.

(** One round of the loop on the next line of a section, by the lemma
    [lem] for that kind of line *)
Ltac next_line lem :=
  cbn [map app parse_loop]; unfold with_nl at 1;
  rewrite parse_line_nl; rewrite lem by (auto; assumption); cbn [bind].

(** The blank line that ends a section *)
Ltac end_of_section :=
  change Py.nl with (with_nl "") at 1; unfold with_nl at 1;
  rewrite parse_line_nl; erewrite parse_blank_line by reflexivity;
  cbn [bind]; eexists; reflexivity.

Lemma parse_section s st rest :
  section_ok s -> item st = empty_item ->
  exists k,
    parse_loop (map with_nl (Section_lines s) ++ Py.nl :: rest)%list st
    = parse_loop rest
        (mkPstate (kwargs st) (items st ++ [canon s]) empty_item "" k).
Proof.
  intros (Hn & Hd & _) Hi. destruct s as [n al d]. cbn [name digests] in *.
  unfold Section_lines, canon. cbn [name digests]. cbv zeta.
  rewrite map_app, <- app_assoc.
  destruct (parse_name_lines st n
              ((map with_nl
                  (algos_line (Py.sorted (keys d))
                   :: map (digest_line d) (Py.sorted (keys d)))
                ++ Py.nl :: rest)%list) Hn Hi) as [k ->].
  destruct (digests_shape d Hd)
    as [(a & -> & La) | [(b & -> & Lb) | [(a & b & -> & La & Lb)
                                          | (a & b & -> & La & Lb)]]].
  - change (Py.sorted (keys [("md5", a)])) with ["md5"].
    next_line parse_algos_line. next_line parse_md5_digest_line.
    end_of_section.
  - change (Py.sorted (keys [("sha1", b)])) with ["sha1"].
    next_line parse_algos_line. next_line parse_sha1_digest_line.
    end_of_section.
  - change (Py.sorted (keys [("md5", a); ("sha1", b)])) with ["md5"; "sha1"].
    next_line parse_algos_line. next_line parse_md5_digest_line.
    next_line parse_sha1_digest_line. end_of_section.
  - change (Py.sorted (keys [("sha1", b); ("md5", a)])) with ["md5"; "sha1"].
    next_line parse_algos_line. next_line parse_md5_digest_line.
    next_line parse_sha1_digest_line. end_of_section.
Qed.

Lemma name_ok_length n : name_ok n -> String.length n <= 137.
Proof. intros (_ & _ & _ & _ & [H | [H _]]); lia. Qed.

Lemma Section_lines_no_nl s :
  section_ok s -> Forall (fun l => Py.dot_star l = l) (Section_lines s).
Proof.
  intros ((Hd & _) & Hdg & _). destruct s as [n al d]. cbn [name digests] in *.
  unfold Section_lines. cbn [name digests]. cbv zeta.
  apply Forall_app. split.
  - unfold name_lines. destruct (String.length n <=? 66)%nat.
    + constructor; [|constructor].
      rewrite dot_star_app by reflexivity. now rewrite Hd.
    + constructor; [|constructor; [|constructor]].
      * rewrite dot_star_app by reflexivity. now rewrite dot_star_take.
      * rewrite dot_star_app by reflexivity. now rewrite dot_star_drop.
  - assert (Hb : forall p v, Py.dot_star p = p ->
                             Py.dot_star (p ++ b64encode v) = p ++ b64encode v).
    { intros p v Hp. rewrite dot_star_app by exact Hp.
      now rewrite no_space_dot_star by apply b64encode_no_space. }
    destruct (digests_shape d Hdg)
      as [(a & -> & _) | [(b & -> & _) | [(a & b & -> & _) | (a & b & -> & _)]]];
      cbn [keys map fst]; cbv [Py.sorted Py.insert_str String.leb String.compare
                               Ascii.compare]; cbn [map];
      repeat apply Forall_cons; try apply Forall_nil; try reflexivity;
      first [ apply (Hb "MD5-Digest: " _ eq_refl)
            | apply (Hb "SHA1-Digest: " _ eq_refl) ].
Qed.

Lemma parse_blank_empty st :
  item st = empty_item ->
  parse_line st Py.nl
  = Ok (mkPstate (kwargs st) (items st) empty_item "" (S (lineno st))).
Proof. intros H. unfold parse_line. cbn. rewrite H. reflexivity. Qed.

Lemma parse_body secs :
  Forall section_ok secs -> secs <> [] ->
  forall st, item st = empty_item ->
  exists k,
    parse_loop (Py.readlines (Py.join Py.nl (map Section_str secs))
                ++ [Py.nl; Py.nl])%list st
    = Ok (mkPstate (kwargs st) (items st ++ map canon secs) empty_item "" k).
Proof.
  induction 1 as [|s secs Hs Hsecs IH]; [congruence|]. intros _ st Hi.
  pose proof (Section_lines_no_nl s Hs) as Hnl.
  pose proof (Section_str_lines s (name_ok_length _ (proj1 Hs))) as Hstr.
  destruct secs as [|s2 secs].
  - cbn [map Py.join]. rewrite Hstr, <- (append_empty_r (text (Section_lines s))).
    rewrite readlines_text by exact Hnl. cbn [Py.readlines].
    rewrite app_nil_r.
    destruct (parse_section s st [Py.nl] Hs Hi) as [k Hk].
    change (map with_nl (Section_lines s) ++ [Py.nl; Py.nl])%list
      with (map with_nl (Section_lines s) ++ Py.nl :: [Py.nl])%list.
    rewrite Hk. cbn [parse_loop]. rewrite parse_blank_empty by reflexivity.
    cbn [bind kwargs items]. eauto.
  - change (Py.join Py.nl (map Section_str (s :: s2 :: secs)))
      with (Section_str s ++ Py.nl ++ Py.join Py.nl (map Section_str (s2 :: secs))).
    rewrite Hstr, readlines_text by exact Hnl.
    change (Py.nl ++ Py.join Py.nl (map Section_str (s2 :: secs)))
      with ("" ++ Py.nl ++ Py.join Py.nl (map Section_str (s2 :: secs))).
    rewrite readlines_line by reflexivity. rewrite <- app_assoc.
    cbn [append app].
    destruct (parse_section s st
                (Py.readlines (Py.join Py.nl (map Section_str (s2 :: secs)))
                 ++ [Py.nl; Py.nl])%list Hs Hi) as [k ->].
    destruct (IH ltac:(discriminate)
                (mkPstate (kwargs st) (items st ++ [canon s]) empty_item "" k)
                eq_refl) as [k' ->].
    cbn [kwargs items]. rewrite <- app_assoc. cbn [app map]. eauto.
Qed.

Lemma canon_same s : section_ok s -> same_section (canon s) s.
Proof.
  intros (_ & Hd & Hinv). destruct s as [n al d]. cbn [digests] in Hd.
  unfold same_section, canon, section_inv in *. cbn [name algos digests] in *.
  cbv zeta. split; [reflexivity|].
  destruct (digests_shape d Hd)
    as [(a & -> & _) | [(b & -> & _) | [(a & b & -> & _) | (a & b & -> & _)]]].
  - split; [intros x; now rewrite Hinv|reflexivity].
  - split; [intros x; now rewrite Hinv|reflexivity].
  - split; [intros x; now rewrite Hinv|reflexivity].
  - split.
    + intros x. rewrite Hinv. simpl. tauto.
    + intros k. simpl.
      destruct (String.eqb_spec k "md5") as [->|]; [reflexivity|].
      destruct (String.eqb_spec k "sha1"); reflexivity.
Qed.

(** C1, as the program has it: a manifest of sections whose names the
    [Name:] header carries, whose digests are of MD5 or SHA-1 or both and
    fit their lines, and whose algorithms are those of their digests, is
    parsed back from its serialized text with the same names, algorithm sets
    and digest bytes, in the same order. *)
Theorem manifest_roundtrip secs :
  Forall section_ok secs ->
  exists secs',
    parse KManifest (str_of (mkManifest KManifest secs None None))
    = Ok (mkManifest KManifest secs' None None)
    /\ Forall2 same_section secs' secs.
Proof.
  intros H. exists (map canon secs). split.
  - destruct secs as [|s secs]; [reflexivity|].
    assert (E : str_of (mkManifest KManifest (s :: secs) None None)
                = "Manifest-Version: 1.0" ++ Py.nl ++ "" ++ Py.nl
                  ++ Py.join Py.nl (map Section_str (s :: secs)))
      by reflexivity.
    unfold parse, parse_input. rewrite E.
    rewrite !readlines_line by reflexivity.
    cbn [app parse_loop].
    change (parse_line init_pstate ("Manifest-Version: 1.0" ++ Py.nl))
      with (Ok (mkPstate None [] empty_item "manifest-version" 1)).
    cbn [bind].
    change (parse_line (mkPstate None [] empty_item "manifest-version" 1)
              ("" ++ Py.nl))
      with (Ok (mkPstate None [] empty_item "" 2)).
    cbn [bind].
    destruct (parse_body (s :: secs) H ltac:(discriminate)
                (mkPstate None [] empty_item "" 2) eq_refl) as [k ->].
    reflexivity.
  - induction H as [|s secs Hs _ IH]; constructor; [|exact IH].
    now apply canon_same.
Qed.

Lemma sample_sections_ok : Forall section_ok sample_sections.
Proof.
  unfold sample_sections.
  apply Forall_cons; [|apply Forall_cons; [|apply Forall_nil]].
  - split; [|split].
    + unfold name_ok. cbn [name]. repeat split; try reflexivity.
      left. apply Nat.leb_le. reflexivity.
    + unfold digests_ok. cbn [digests keys map fst]. repeat split.
      * repeat constructor; simpl; intuition discriminate.
      * discriminate.
      * intros k [<-|[<-|[]]]; auto.
      * intros k v [[= <- <-]|[[= <- <-]|[]]]; apply Nat.leb_le; reflexivity.
    + intros a. reflexivity.
  - split; [|split].
    + unfold name_ok. cbn [name]. repeat split; try reflexivity.
      right. repeat split; try reflexivity. apply Nat.leb_le. reflexivity.
    + unfold digests_ok. cbn [digests keys map fst]. repeat split.
      * repeat constructor; simpl; intuition discriminate.
      * discriminate.
      * intros k [<-|[]]; auto.
      * intros k v [[= <- <-]|[]]; apply Nat.leb_le; reflexivity.
    + intros a. reflexivity.
Qed.

Lemma manifest_roundtrip_witness :
  Forall section_ok sample_sections
  /\ exists secs',
       parse KManifest (str_of (mkManifest KManifest sample_sections None None))
       = Ok (mkManifest KManifest secs' None None)
       /\ Forall2 same_section secs' sample_sections.
Proof.
  split; [exact sample_sections_ok|].
  exact (manifest_roundtrip sample_sections sample_sections_ok).
Defined.

(** ** The invariant of sections, for the extractor and for the parser *)






(** ** Further properties *)

Lemma wrap_fuel_any f1 : forall f2 name entry,
  String.length name <= f1 -> String.length name <= f2 ->
  wrap f1 name entry = wrap f2 name entry.
Proof.
  induction f1 as [|f1 IH]; intros f2 n entry H1 H2.
  - destruct n; [|simpl in H1; lia]. now rewrite !wrap_empty.
  - destruct f2 as [|f2].
    + destruct n; [|simpl in H2; lia]. now rewrite !wrap_empty.
    + cbn [wrap]. destruct n as [|c n]; [reflexivity|]. cbn [Py.nonempty].
      apply IH; rewrite drop_length; simpl in *; lia.
Qed.

(** The loop of [Section.__str__] ends: more rounds than the length of the
    name change nothing. *)
Theorem wrap_fuel fuel name entry :
  String.length name <= fuel ->
  wrap fuel name entry = wrap (String.length name) name entry.
Proof. intros H. now apply wrap_fuel_any. Qed.

Lemma wrap_fuel_witness :
  String.length "Name: a" <= 100
  /\ wrap 100 "Name: a" "" = wrap (String.length "Name: a") "Name: a" "".
Proof.
  assert (H : String.length "Name: a" <= 100) by (apply Nat.leb_le; reflexivity).
  split; [exact H|]. exact (wrap_fuel 100 "Name: a" "" H).
Defined.

(** No section of an extractor is that of a directory: its name does not
    end in a path separator. *)
Theorem extractor_skips_directories md5 sha1 osort je :
  reachable md5 sha1 osort je ->
  Forall (fun s => directory_re (name s) = false) (_digests je).
Proof.
  intros H. destruct (reachable_sections _ _ _ _ H) as (zin & fl & ->).
  apply Forall_forall. intros s Hs.
  apply in_map_iff in Hs as (f & <- & Hf). apply filter_In in Hf as [_ Hf].
  unfold is_file in Hf. now apply negb_true_iff in Hf.
Qed.

Lemma extractor_skips_directories_witness :
  reachable sample_md5 sample_sha1 sample_order sample_extractor
  /\ Forall (fun s => directory_re (name s) = false) (_digests sample_extractor).
Proof.
  split; [exact sample_extractor_reachable|].
  exact (extractor_skips_directories sample_md5 sample_sha1 sample_order
           sample_extractor sample_extractor_reachable).
Defined.

Lemma copy_members_spec zin fl : forall zout zout',
  copy_members zin fl zout = (zout', Ok tt) ->
  exists members, zout' = (zout ++ members)%list /\ map fst members = fl.
Proof.
  induction fl as [|f fl IH]; cbn [copy_members]; intros zout zout' H.
  - injection H as <-. exists []. now rewrite app_nil_r.
  - destruct (zip_read zin (filename f)) as [data|e]; [|discriminate].
    apply IH in H as (members & -> & <-).
    exists ((f, data) :: members). now rewrite <- app_assoc.
Qed.

(** What [make_signed] writes when it succeeds: the signature block first,
    then the members of the input in the order that [sorted] gives them,
    then the manifest and the signature file. *)
Theorem make_signed_layout md5 sha1 osort je sig out fs je' fs' :
  reachable md5 sha1 osort je ->
  make_signed md5 sha1 osort je sig out fs = (Ok tt, je', fs') ->
  exists p zin members,
    truthy_path (path_or out (outpath je)) = Some p
    /\ path_exists p fs = false
    /\ ZipFile_read fs (inpath je) = Ok zin
    /\ map fst members = osort (filelist zin)
    /\ fs' = fs_set p
               (ZipData
                  ((mkZipInfo "META-INF/zigbert.rsa", sig) :: members
                   ++ [(mkZipInfo "META-INF/manifest.mf", str_of (fst (manifest je)));
                       (mkZipInfo "META-INF/zigbert.sf",
                        str_of (fst (signatures md5 sha1 je)))])%list)
               fs.
Proof.
  intros Hr H. apply reachable_inv in Hr. unfold make_signed in H.
  destruct (truthy_path _) as [p|]; [|discriminate].
  destruct (path_exists p fs) eqn:Ep; [discriminate|].
  destruct (ZipFile_read fs (inpath je)) as [zin|e]; [|discriminate].
  destruct (copy_members _ _ _) as [zout [[]|e]] eqn:Ec; [|discriminate].
  apply copy_members_spec in Ec as (members & -> & Hm).
  pose proof (manifest_value md5 sha1 je Hr) as Hv.
  pose proof (manifest_inv md5 sha1 je Hr) as Hi.
  pose proof (manifest_digests je) as Hd.
  pose proof (manifest_omit je) as Ho.
  rewrite (signatures_value md5 sha1 je Hr).
  destruct (manifest je) as [m je1]; cbn [fst snd] in *.
  pose proof (signatures_value md5 sha1 je1 Hi) as Hs.
  destruct (signatures md5 sha1 je1) as [sg je2]; cbn [fst] in *.
  injection H as _ <-. exists p, zin, members.
  repeat (split; [reflexivity || assumption|]).
  subst m sg. unfold expected_signatures, expected_manifest.
  rewrite Hd, Ho. cbn [app]. rewrite <- app_assoc. reflexivity.
Qed.

Lemma make_signed_layout_witness :
  reachable sample_md5 sample_sha1 sample_order sample_extractor
  /\ exists p zin members,
       truthy_path (path_or (Some "out.xpi") (outpath sample_extractor)) = Some p
       /\ path_exists p sample_fs = false
       /\ ZipFile_read sample_fs (inpath sample_extractor) = Ok zin
       /\ map fst members = sample_order (filelist zin)
       /\ snd (make_signed sample_md5 sample_sha1 sample_order sample_extractor
                 "sig" (Some "out.xpi") sample_fs)
          = fs_set p
              (ZipData
                 ((mkZipInfo "META-INF/zigbert.rsa", "sig") :: members
                  ++ [(mkZipInfo "META-INF/manifest.mf",
                       str_of (fst (manifest sample_extractor)));
                      (mkZipInfo "META-INF/zigbert.sf",
                       str_of (fst (signatures sample_md5 sample_sha1
                                      sample_extractor)))])%list)
              sample_fs.
Proof.
  split; [exact sample_extractor_reachable|].
  exact (make_signed_layout sample_md5 sample_sha1 sample_order sample_extractor
           "sig" (Some "out.xpi") sample_fs _ _ sample_extractor_reachable eq_refl).
Defined.

(** ** The text handed to the signer *)

Lemma signature_snd md5 sha1 je :
  snd (signature md5 sha1 je) = snd (signatures md5 sha1 je).
Proof. unfold signature. now destruct (signatures md5 sha1 je). Qed.

Lemma signature_fst md5 sha1 je :
  fst (signature md5 sha1 je) = header_of (fst (signatures md5 sha1 je)) ++ Py.nl.
Proof. unfold signature. now destruct (signatures md5 sha1 je). Qed.

Lemma sorted_items_digest md5 sha1 data :
  sorted_items (_digest md5 sha1 data) = _digest md5 sha1 data.
Proof. reflexivity. Qed.

(** The property [signature] is the version line of the signature file and
    the two digests of the serialized manifest, MD5 first; it is the whole
    signature file when the sections are omitted. *)
Theorem signature_text md5 sha1 osort je :
  reachable md5 sha1 osort je ->
  fst (signature md5 sha1 je)
  = "Signature-Version: 1.0" ++ Py.nl
    ++ "MD5-Digest-Manifest: " ++ b64encode (md5 (str_of (fst (manifest je)))) ++ Py.nl
    ++ "SHA1-Digest-Manifest: " ++ b64encode (sha1 (str_of (fst (manifest je))))
    ++ Py.nl
  /\ (omit_sections je = true ->
      str_of (fst (signatures md5 sha1 je)) = fst (signature md5 sha1 je)).
Proof.
  intros Hr. apply reachable_inv in Hr.
  rewrite signature_fst, (signatures_value md5 sha1 je Hr),
    (manifest_value md5 sha1 je Hr).
  split.
  - unfold expected_signatures, header_of, digest_manifest, digest_manifests.
    cbn [klass_of attr_digest_manifests].
    rewrite sorted_items_digest. unfold _digest.
    cbn [map fst snd Py.join]. rewrite !app_str_assoc. reflexivity.
  - intros Ho. unfold str_of, expected_signatures, omit_individual_sections.
    cbn [klass_of attr_omit_individual_sections]. now rewrite Ho.
Qed.

Lemma signature_text_witness :
  reachable sample_md5 sample_sha1 sample_order sample_extractor
  /\ fst (signature sample_md5 sample_sha1 sample_extractor)
     = "Signature-Version: 1.0" ++ Py.nl
       ++ "MD5-Digest-Manifest: "
       ++ b64encode (sample_md5 (str_of (fst (manifest sample_extractor)))) ++ Py.nl
       ++ "SHA1-Digest-Manifest: "
       ++ b64encode (sample_sha1 (str_of (fst (manifest sample_extractor))))
       ++ Py.nl.
Proof.
  split; [exact sample_extractor_reachable|].
  exact (proj1 (signature_text sample_md5 sample_sha1 sample_order
                  sample_extractor sample_extractor_reachable)).
Defined.

(** ** The cached properties never change *)

Lemma expected_stable md5 sha1 je je' :
  _digests je' = _digests je -> omit_sections je' = omit_sections je ->
  expected_manifest je' = expected_manifest je
  /\ expected_signatures md5 sha1 je' = expected_signatures md5 sha1 je.
Proof.
  intros Hd Ho. unfold expected_signatures, expected_manifest.
  now rewrite Hd, Ho.
Qed.

(** Whatever is done with an extractor (reading a property, writing a signed
    archive), its properties [manifest] and [signatures] keep the values they
    had. *)
Theorem properties_stable md5 sha1 osort je je' :
  reachable md5 sha1 osort je ->
  je' = snd (manifest je) \/ je' = snd (signatures md5 sha1 je)
  \/ je' = snd (signature md5 sha1 je)
  \/ (exists sig out fs, je' = snd (fst (make_signed md5 sha1 osort je sig out fs))) ->
  fst (manifest je') = fst (manifest je)
  /\ fst (signatures md5 sha1 je') = fst (signatures md5 sha1 je)
  /\ fst (signature md5 sha1 je') = fst (signature md5 sha1 je).
Proof.
  intros Hr Hop.
  assert (Hr' : reachable md5 sha1 osort je').
  { destruct Hop as [-> | [-> | [-> | (sig & out & fs & ->)]]];
      now constructor. }
  assert (Hs : _digests je' = _digests je /\ omit_sections je' = omit_sections je).
  { destruct Hop as [-> | [-> | [-> | (sig & out & fs & ->)]]].
    - split; [apply manifest_digests|apply manifest_omit].
    - split; [apply signatures_digests|apply signatures_omit].
    - rewrite signature_snd.
      split; [apply signatures_digests|apply signatures_omit].
    - apply make_signed_digests. }
  destruct Hs as [Hd Ho].
  destruct (expected_stable md5 sha1 je je' Hd Ho) as [Em Es].
  apply reachable_inv in Hr, Hr'.
  rewrite !signature_fst.
  rewrite (manifest_value md5 sha1 je' Hr'), (manifest_value md5 sha1 je Hr).
  rewrite (signatures_value md5 sha1 je' Hr'), (signatures_value md5 sha1 je Hr).
  now rewrite Em, Es.
Qed.

Lemma properties_stable_witness :
  reachable sample_md5 sample_sha1 sample_order sample_extractor
  /\ fst (signatures sample_md5 sample_sha1
            (snd (fst (make_signed sample_md5 sample_sha1 sample_order
                         sample_extractor "sig" (Some "out.xpi") sample_fs))))
     = fst (signatures sample_md5 sample_sha1 sample_extractor).
Proof.
  split; [exact sample_extractor_reachable|].
  refine (proj1 (proj2 (properties_stable sample_md5 sample_sha1 sample_order
                          sample_extractor _ sample_extractor_reachable _))).
  right. right. right. exists "sig", (Some "out.xpi"), sample_fs. reflexivity.
Defined.

(** ** What the constructor builds from an archive *)

Lemma Permutation_filter_same {A} (p : A -> bool) l l' :
  Permutation l l' -> Permutation (filter p l) (filter p l').
Proof.
  induction 1 as [|x l l' _ IH|x y l|l l' l'' _ IH1 _ IH2]; cbn [filter].
  - constructor.
  - destruct (p x); [now constructor|exact IH].
  - destruct (p x), (p y); try reflexivity. apply perm_swap.
  - now transitivity (filter p l').
Qed.

Lemma filter_map_comm {A B} (f : A -> B) (p : B -> bool) l :
  filter p (map f l) = map f (filter (fun x => p (f x)) l).
Proof.
  induction l as [|x l IH]; [reflexivity|]. cbn [map filter].
  destruct (p (f x)); cbn [map]; now rewrite IH.
Qed.

Lemma digest_entries_reads md5 sha1 zin fl : forall acc ds,
  digest_entries md5 sha1 zin fl acc = Ok ds ->
  Forall (fun f => exists data, zip_read zin (filename f) = Ok data)
    (filter is_file fl).
Proof.
  induction fl as [|f fl IH]; cbn [digest_entries filter]; intros acc ds H;
    [constructor|].
  unfold digest_entry, is_file in *.
  destruct (directory_re (filename f)); cbn [negb bind] in *.
  - now apply IH in H.
  - destruct (zip_read zin (filename f)) as [data|e] eqn:E; cbn [bind] in H;
      [|discriminate].
    constructor; [eauto|]. now apply IH in H.
Qed.

(** When the constructor returns, the archive at the path was opened; the
    extractor keeps the paths and the flag it was given, and holds one
    section for each member whose name is not that of a directory, under the
    name of the member, with the digests of what [zin.read] returned for
    that name. *)
Theorem JarExtractor_init_sections md5 sha1 fs path outp omit je :
  JarExtractor_init md5 sha1 fs path outp omit = Ok je ->
  exists zin,
    ZipFile_read fs path = Ok zin
    /\ inpath je = path /\ outpath je = outp /\ omit_sections je = omit
    /\ Permutation (map name (_digests je))
         (filter (fun n => negb (directory_re n)) (map filename (filelist zin)))
    /\ Forall (fun s => exists data,
                  zip_read zin (name s) = Ok data
                  /\ digests s = _digest md5 sha1 data
                  /\ algos s = keys (digests s))
         (_digests je).
Proof.
  intros Hje.
  assert (Hr : exists zin,
             ZipFile_read fs path = Ok zin
             /\ Forall (fun f => exists data, zip_read zin (filename f) = Ok data)
                  (filter is_file (sorted_by file_key (filelist zin)))).
  { unfold JarExtractor_init in Hje.
    destruct (ZipFile_read fs path) as [zin|e]; [|discriminate]. cbn [bind] in Hje.
    destruct (digest_entries _ _ _ _ _) as [ds|e] eqn:E; [|discriminate].
    exists zin. split; [reflexivity|]. exact (digest_entries_reads _ _ _ _ _ _ E). }
  destruct Hr as (zin & Hz & Hreads). exists zin. split; [exact Hz|].
  apply JarExtractor_init_spec in Hje as (zin' & Hz' & ->).
  rewrite Hz in Hz'. injection Hz' as <-. cbn [inpath outpath omit_sections _digests].
  repeat split.
  - rewrite map_map. cbn [section_of_member name].
    rewrite filter_map_comm. apply Permutation_map.
    apply Permutation_filter_same, sorted_by_perm.
  - apply Forall_forall. intros s Hs.
    apply in_map_iff in Hs as (f & <- & Hf).
    rewrite Forall_forall in Hreads. destruct (Hreads f Hf) as [data Hd].
    exists data. unfold section_of_member, member_data. cbn [name digests algos].
    rewrite Hd. auto.
Qed.

Lemma JarExtractor_init_sections_witness :
  JarExtractor_init sample_md5 sample_sha1 sample_fs "in.xpi" None false
  = Ok sample_extractor
  /\ Permutation (map name (_digests sample_extractor)) ["foo.txt"; "install.rdf"].
Proof.
  split; [reflexivity|].
  destruct (JarExtractor_init_sections sample_md5 sample_sha1 sample_fs "in.xpi"
              None false sample_extractor eq_refl) as (zin & Hz & _ & _ & _ & Hp & _).
  injection Hz as <-. exact Hp.
Defined.

(** ** The effect of [make_signed] on the file system *)

Lemma fs_get_set_same p f fs : fs_get p (fs_set p f fs) = Some f.
Proof.
  induction fs as [|[q g] fs IH]; cbn [fs_set fs_get].
  - now rewrite String.eqb_refl.
  - destruct (String.eqb p q) eqn:E; cbn [fs_get]; rewrite ?String.eqb_refl, ?E; auto.
Qed.

Lemma fs_get_set_other p q f fs : p <> q -> fs_get p (fs_set q f fs) = fs_get p fs.
Proof.
  intros Hne. apply String.eqb_neq in Hne.
  induction fs as [|[r g] fs IH]; cbn [fs_set fs_get].
  - now rewrite Hne.
  - destruct (String.eqb_spec q r) as [->|Hqr]; cbn [fs_get].
    + now rewrite Hne.
    + destruct (String.eqb p r); auto.
Qed.

Lemma make_signed_paths md5 sha1 osort je sig out fs :
  inpath (snd (fst (make_signed md5 sha1 osort je sig out fs))) = inpath je
  /\ outpath (snd (fst (make_signed md5 sha1 osort je sig out fs))) = outpath je.
Proof.
  unfold make_signed.
  destruct (truthy_path _); [|now split].
  destruct (path_exists _ _); [now split|].
  destruct (ZipFile_read _ _); [|now split].
  destruct (copy_members _ _ _) as [zout [[]|e]]; [|now split].
  unfold signatures, manifest.
  destruct (cached (_manifest je)); cbn [fst snd];
    destruct (cached (_sig _)); cbn [fst snd _manifest inpath outpath];
    try (now split);
    destruct (cached _); now split.
Qed.

(** [make_signed] touches the file system at its destination only: every
    other path holds what it held, whether the call returns or raises; when
    it returns, the destination exists and the input archive is as it was. *)
Theorem make_signed_frame md5 sha1 osort je sig out fs p :
  truthy_path (path_or out (outpath je)) <> Some p ->
  fs_get p (snd (make_signed md5 sha1 osort je sig out fs)) = fs_get p fs.
Proof.
  intros Hp. unfold make_signed.
  destruct (truthy_path _) as [d|]; [|reflexivity].
  assert (Hne : p <> d) by congruence.
  destruct (path_exists _ _); [reflexivity|].
  destruct (ZipFile_read _ _); [|reflexivity].
  destruct (copy_members _ _ _) as [zout [[]|e]].
  - destruct (manifest je) as [m je1]. destruct (signatures md5 sha1 je1).
    cbn [snd]. now apply fs_get_set_other.
  - cbn [snd]. now apply fs_get_set_other.
Qed.

Lemma make_signed_frame_witness :
  truthy_path (path_or (Some "out.xpi") (outpath sample_extractor)) <> Some "in.xpi"
  /\ fs_get "in.xpi"
       (snd (make_signed sample_md5 sample_sha1 sample_order sample_extractor
               "sig" (Some "out.xpi") sample_fs))
     = fs_get "in.xpi" sample_fs.
Proof.
  assert (H : truthy_path (path_or (Some "out.xpi") (outpath sample_extractor))
              <> Some "in.xpi") by discriminate.
  split; [exact H|].
  exact (make_signed_frame sample_md5 sample_sha1 sample_order sample_extractor
           "sig" (Some "out.xpi") sample_fs "in.xpi" H).
Defined.

(** A signed archive is written once: after a call that returned, the same
    call (with any signature) raises [IOError] and changes nothing, and the
    input archive is as it was. *)
Theorem make_signed_once md5 sha1 osort je sig out fs je' fs' :
  make_signed md5 sha1 osort je sig out fs = (Ok tt, je', fs') ->
  exists p,
    truthy_path (path_or out (outpath je)) = Some p
    /\ path_exists p fs' = true
    /\ fs_get (inpath je) fs' = fs_get (inpath je) fs
    /\ forall sig2,
         make_signed md5 sha1 osort je' sig2 out fs'
         = (Raise (IOError ("File already exists: " ++ p)), je', fs').
Proof.
  intros H.
  pose proof (make_signed_paths md5 sha1 osort je sig out fs) as [_ Hout].
  pose proof (make_signed_frame md5 sha1 osort je sig out fs (inpath je)) as Hfr.
  rewrite H in Hout, Hfr. cbn [fst snd] in Hout, Hfr.
  unfold make_signed in H.
  destruct (truthy_path (path_or out (outpath je))) as [p|] eqn:Ep; [|discriminate].
  destruct (path_exists p fs) eqn:Ex; [discriminate|].
  destruct (ZipFile_read fs (inpath je)) as [zin|e] eqn:Ez; [|discriminate].
  destruct (copy_members _ _ _) as [zout [[]|e]]; [|discriminate].
  destruct (manifest je) as [m je1]. destruct (signatures md5 sha1 je1) as [sg je2].
  injection H as <- <-. exists p.
  assert (Hex : path_exists p
                  (fs_set p (ZipData ((zout ++ [(mkZipInfo "META-INF/manifest.mf", str_of m)])
                                      ++ [(mkZipInfo "META-INF/zigbert.sf", str_of sg)])%list) fs)
                = true).
  { unfold path_exists. now rewrite fs_get_set_same. }
  repeat split; try assumption.
  - apply Hfr. intros [= ->]. unfold ZipFile_read, path_exists in *.
    destruct (fs_get (inpath je) fs); discriminate.
  - intros sig2. unfold make_signed. rewrite Hout, Ep, Hex. reflexivity.
Qed.

Lemma make_signed_once_witness :
  make_signed sample_md5 sample_sha1 sample_order sample_extractor
    "sig" (Some "out.xpi") sample_fs
  = (Ok tt,
     snd (fst (make_signed sample_md5 sample_sha1 sample_order sample_extractor
                 "sig" (Some "out.xpi") sample_fs)),
     snd (make_signed sample_md5 sample_sha1 sample_order sample_extractor
            "sig" (Some "out.xpi") sample_fs))
  /\ exists p,
       path_exists p
         (snd (make_signed sample_md5 sample_sha1 sample_order sample_extractor
                 "sig" (Some "out.xpi") sample_fs)) = true.
Proof.
  split; [reflexivity|].
  destruct (make_signed_once sample_md5 sample_sha1 sample_order sample_extractor
              "sig" (Some "out.xpi") sample_fs _ _ eq_refl) as (p & _ & Hp & _).
  exists p. exact Hp.
Defined.

(** ** The sections come in the order of their classes *)

Lemma key_le_prio f g :
  key_le file_key f g -> prio_of (filename f) <= prio_of (filename g).
Proof.
  unfold key_le, file_key.
  destruct (os_path_split (Py.lower (filename f))) as [hf tf].
  destruct (os_path_split (Py.lower (filename g))) as [hg tg].
  destruct (prio_of_cases (filename f)) as [[_ ->]|[[_ ->]|[[_ ->]|[_ ->]]]];
    destruct (prio_of_cases (filename g)) as [[_ ->]|[[_ ->]|[[_ ->]|[_ ->]]]];
    try lia; intros H; discriminate H.
Qed.

Lemma Sorted_weaken {A} (R S : A -> A -> Prop) l :
  (forall x y, R x y -> S x y) -> Sorted R l -> Sorted S l.
Proof.
  intros HRS. induction 1 as [|x l _ IH Hhd]; constructor; [exact IH|].
  destruct Hhd; constructor. now apply HRS.
Qed.

Lemma StronglySorted_filter {A} (R : A -> A -> Prop) (p : A -> bool) l :
  StronglySorted R l -> StronglySorted R (filter p l).
Proof.
  induction 1 as [|x l _ IH Hall]; cbn [filter]; [constructor|].
  destruct (p x); [|exact IH]. constructor; [exact IH|].
  apply Forall_forall. intros y Hy. apply filter_In in Hy as [Hy _].
  revert y Hy. now apply Forall_forall.
Qed.

Lemma StronglySorted_map {A B} (R : B -> B -> Prop) (f : A -> B) l :
  StronglySorted (fun x y => R (f x) (f y)) l -> StronglySorted R (map f l).
Proof.
  induction 1 as [|x l _ IH Hall]; cbn [map]; constructor; [exact IH|].
  apply Forall_forall. intros y Hy. apply in_map_iff in Hy as (z & <- & Hz).
  revert z Hz. now apply Forall_forall.
Qed.

(** In the manifest of an extractor every section of a lower class comes
    before every section of a higher class: install.rdf first, then
    chrome.manifest and the icons, then the ordinary files, then the
    licenses. *)
Theorem sections_by_class md5 sha1 fs path outp omit je :
  JarExtractor_init md5 sha1 fs path outp omit = Ok je ->
  StronglySorted (fun a b => prio_of a <= prio_of b) (map name (_digests je)).
Proof.
  intros H. apply JarExtractor_init_spec in H as (zin & _ & ->).
  cbn [_digests]. rewrite map_map. cbn [section_of_member name].
  apply StronglySorted_map, StronglySorted_filter.
  apply Sorted_StronglySorted.
  - intros x y z Hxy Hyz. lia.
  - apply (Sorted_weaken (key_le file_key)); [exact key_le_prio|].
    apply sorted_by_sorted.
Qed.

Lemma sections_by_class_witness :
  JarExtractor_init sample_md5 sample_sha1 sample_fs "in.xpi" None false
  = Ok sample_extractor
  /\ StronglySorted (fun a b => prio_of a <= prio_of b)
       (map name (_digests sample_extractor)).
Proof.
  split; [reflexivity|].
  exact (sections_by_class sample_md5 sample_sha1 sample_fs "in.xpi" None false
           sample_extractor eq_refl).
Defined.

(** ** What the parser does not look at *)

Lemma parse_line_rstrip st a b :
  Py.rstrip a = Py.rstrip b -> parse_line st a = parse_line st b.
Proof. intros H. unfold parse_line. now rewrite H. Qed.

Lemma parse_loop_rstrip ls ls' :
  Forall2 (fun a b => Py.rstrip a = Py.rstrip b) ls ls' ->
  forall st, parse_loop ls st = parse_loop ls' st.
Proof.
  induction 1 as [|a b ls ls' Hab _ IH]; intros st; [reflexivity|].
  cbn [parse_loop]. rewrite (parse_line_rstrip st a b Hab).
  destruct (parse_line st b); cbn [bind]; [apply IH|reflexivity].
Qed.

(** White space at the end of a line is not part of the line: two texts
    whose lines differ only in their trailing white space (the carriage
    returns of CRLF line ends, for instance) are parsed alike. *)
Theorem parse_trailing_space k ls ls' :
  Forall2 (fun l l' => Py.rstrip l = Py.rstrip l'
                       /\ Py.dot_star l = l /\ Py.dot_star l' = l') ls ls' ->
  parse k (text ls) = parse k (text ls').
Proof.
  intros H. unfold parse, parse_input.
  rewrite <- (append_empty_r (text ls)), <- (append_empty_r (text ls')).
  rewrite !readlines_text.
  - cbn [Py.readlines]. rewrite !app_nil_r.
    rewrite (parse_loop_rstrip (map with_nl ls ++ [Py.nl; Py.nl])
                               (map with_nl ls' ++ [Py.nl; Py.nl])); [reflexivity|].
    apply Forall2_app; [|repeat constructor].
    induction H as [|l l' ls ls' (Hr & _) _ IH]; cbn [map]; constructor;
      [|exact IH].
    unfold with_nl. now rewrite !rstrip_nl.
  - clear -H. induction H as [|l l' ls ls' (_ & _ & Hd) _ IH]; now constructor.
  - clear -H. induction H as [|l l' ls ls' (_ & Hd & _) _ IH]; now constructor.
Qed.

Lemma parse_trailing_space_witness :
  Forall2 (fun l l' => Py.rstrip l = Py.rstrip l'
                       /\ Py.dot_star l = l /\ Py.dot_star l' = l')
    ["Name: a"; "Digest-Algorithms: MD5"]
    ["Name: a" ++ String "013" ""; "Digest-Algorithms: MD5  " ++ String "013" ""]
  /\ parse KManifest (text ["Name: a"; "Digest-Algorithms: MD5"])
     = parse KManifest
         (text ["Name: a" ++ String "013" "";
                "Digest-Algorithms: MD5  " ++ String "013" ""]).
Proof.
  assert (H : Forall2 (fun l l' => Py.rstrip l = Py.rstrip l'
                       /\ Py.dot_star l = l /\ Py.dot_star l' = l')
    ["Name: a"; "Digest-Algorithms: MD5"]
    ["Name: a" ++ String "013" ""; "Digest-Algorithms: MD5  " ++ String "013" ""])
    by (repeat constructor).
  split; [exact H|]. exact (parse_trailing_space KManifest _ _ H).
Defined.

(** ** The end of the input *)

Lemma readlines_app_nl buf :
  Py.readlines (buf ++ Py.nl) = (Py.readlines buf ++ [Py.nl])%list
  \/ exists pre last,
       Py.readlines buf = (pre ++ [last])%list
       /\ Py.readlines (buf ++ Py.nl) = (pre ++ [with_nl last])%list.
Proof.
  induction buf as [|c buf IH]; [now left|].
  cbn [append Py.readlines].
  destruct (Ascii.eqb c Py.newline).
  - destruct IH as [-> | (pre & last & -> & ->)]; [now left|].
    right. exists (Py.nl :: pre), last. auto.
  - destruct IH as [E | (pre & last & E1 & E2)].
    + rewrite E. destruct (Py.readlines buf) as [|l ls]; cbn [app].
      * right. exists [], (String c ""). auto.
      * now left.
    + rewrite E1, E2. right. destruct pre as [|l pre]; cbn [app].
      * exists [], (String c last). auto.
      * exists (String c l :: pre), last. auto.
Qed.

Lemma parse_loop_app ls1 ls2 : forall st,
  parse_loop (ls1 ++ ls2) st = (st' <- parse_loop ls1 st ;; parse_loop ls2 st').
Proof.
  induction ls1 as [|l ls1 IH]; intros st; [reflexivity|].
  cbn [app parse_loop]. destruct (parse_line st l); cbn [bind]; [apply IH|reflexivity].
Qed.

Lemma item_nonempty_false i : item_nonempty i = false -> i = empty_item.
Proof.
  destruct i as [[n|] [a|] [d|]]; cbn; intros H; try discriminate H; reflexivity.
Qed.

Lemma parse_blank_state st st' :
  parse_line st Py.nl = Ok st' -> item st' = empty_item /\ header st' = "".
Proof.
  unfold parse_line. cbn.
  destruct (item_nonempty (item st)) eqn:E.
  - destruct (section_of_item (item st)); cbn [bind]; [|discriminate].
    now intros [= <-].
  - intros [= <-]. split; [now apply item_nonempty_false|reflexivity].
Qed.

(** A newline more at the end of the input makes no difference: the parser
    adds two of its own in any case. *)
Theorem parse_final_newline k buf : parse k (buf ++ Py.nl) = parse k buf.
Proof.
  unfold parse, parse_input.
  destruct (readlines_app_nl buf) as [-> | (pre & last & E1 & ->)].
  - rewrite <- app_assoc.
    change ([Py.nl] ++ [Py.nl; Py.nl])%list with ([Py.nl; Py.nl] ++ [Py.nl])%list.
    rewrite app_assoc, (parse_loop_app (Py.readlines buf ++ [Py.nl; Py.nl])).
    rewrite (app_assoc _ [Py.nl] [Py.nl]), (parse_loop_app _ [Py.nl]).
    destruct (parse_loop (Py.readlines buf ++ [Py.nl]) init_pstate) as [st1|e];
      cbn [bind parse_loop]; [|reflexivity].
    destruct (parse_line st1 Py.nl) as [st2|e] eqn:E2; cbn [bind]; [|reflexivity].
    destruct (parse_blank_state _ _ E2) as [Hi Hh].
    rewrite (parse_blank_empty st2 Hi). reflexivity.
  - rewrite E1, <- !app_assoc. rewrite !(parse_loop_app pre).
    destruct (parse_loop pre init_pstate) as [st1|e]; cbn [bind]; [|reflexivity].
    cbn [app parse_loop]. unfold with_nl. now rewrite parse_line_nl.
Qed.

(** ** Round trip of the signature file *)

Lemma b64encode_manifest_line_facts v :
  v <> "" -> String.length v <= 36 ->
  b64encode v <> "" /\ Py.rstrip (b64encode v) = b64encode v
  /\ Py.skip_ws (b64encode v) = b64encode v
  /\ Py.dot_star (b64encode v) = b64encode v
  /\ String.length (b64encode v) <= 50.
Proof.
  intros Hne Hl. pose proof (b64encode_no_space v) as Hs.
  pose proof (b64encode_length v) as Hlen.
  split; [now apply b64encode_nonempty|].
  split; [now apply no_space_rstrip|]. split; [now apply no_space_skip_ws|].
  split; [now apply no_space_dot_star|]. lia.
Qed.

Lemma parse_md5_manifest_line st v :
  String.length v <= 36 ->
  parse_line st ("MD5-Digest-Manifest: " ++ b64encode v)
  = Ok (mkPstate
          (Some (dict_set "md5" v
                   match kwargs st with Some d => d | None => [] end))
          (items st) (item st) "md5-digest-manifest" (S (lineno st))).
Proof.
  intros Hl. destruct (string_dec v "") as [->|Hne]; [reflexivity|].
  destruct (b64encode_manifest_line_facts v Hne Hl) as (He & Hr & Hs & Hd & Hlen).
  unfold parse_line. rewrite rstrip_prefix by assumption.
  rewrite length_le_ltb by (rewrite length_app; simpl; lia).
  change (Py.nonempty ("MD5-Digest-Manifest: " ++ b64encode v)) with true.
  cbn [negb].
  change (continuation_re ("MD5-Digest-Manifest: " ++ b64encode v))
    with (@None string).
  change (headers_re ("MD5-Digest-Manifest: " ++ b64encode v))
    with (Some ("MD5-Digest-Manifest", Py.dot_star (Py.skip_ws (b64encode v)))).
  rewrite Hs, Hd.
  unfold parse_header, b64decode_or_raise. rewrite b64decode_b64encode.
  reflexivity.
Qed.

Lemma parse_sha1_manifest_line st v :
  String.length v <= 36 ->
  parse_line st ("SHA1-Digest-Manifest: " ++ b64encode v)
  = Ok (mkPstate
          (Some (dict_set "sha1" v
                   match kwargs st with Some d => d | None => [] end))
          (items st) (item st) "sha1-digest-manifest" (S (lineno st))).
Proof.
  intros Hl. destruct (string_dec v "") as [->|Hne]; [reflexivity|].
  destruct (b64encode_manifest_line_facts v Hne Hl) as (He & Hr & Hs & Hd & Hlen).
  unfold parse_line. rewrite rstrip_prefix by assumption.
  rewrite length_le_ltb by (rewrite length_app; simpl; lia).
  change (Py.nonempty ("SHA1-Digest-Manifest: " ++ b64encode v)) with true.
  cbn [negb].
  change (continuation_re ("SHA1-Digest-Manifest: " ++ b64encode v))
    with (@None string).
  change (headers_re ("SHA1-Digest-Manifest: " ++ b64encode v))
    with (Some ("SHA1-Digest-Manifest", Py.dot_star (Py.skip_ws (b64encode v)))).
  rewrite Hs, Hd.
  unfold parse_header, b64decode_or_raise. rewrite b64decode_b64encode.
  reflexivity.
Qed.

Lemma signature_header_lines a b :
  header_of (mkManifest KSignature [] (Some [("md5", a); ("sha1", b)]) None)
  = "Signature-Version: 1.0" ++ Py.nl
    ++ ("MD5-Digest-Manifest: " ++ b64encode a) ++ Py.nl
    ++ ("SHA1-Digest-Manifest: " ++ b64encode b).
Proof. reflexivity. Qed.

Lemma no_nl_b64 p v :
  Py.dot_star p = p -> Py.dot_star (p ++ b64encode v) = p ++ b64encode v.
Proof.
  intros Hp. rewrite dot_star_app by exact Hp.
  now rewrite no_space_dot_star by apply b64encode_no_space.
Qed.

Lemma parse_signature_version :
  parse_line init_pstate "Signature-Version: 1.0"
  = Ok (mkPstate None [] empty_item "signature-version" 1).
Proof. reflexivity. Qed.

Lemma parse_signature_header a b rest :
  String.length a <= 36 -> String.length b <= 36 ->
  parse_loop
    (Py.readlines
       ("Signature-Version: 1.0" ++ Py.nl
        ++ ("MD5-Digest-Manifest: " ++ b64encode a) ++ Py.nl
        ++ ("SHA1-Digest-Manifest: " ++ b64encode b) ++ Py.nl ++ "" ++ Py.nl ++ rest)
     ++ [Py.nl; Py.nl])%list init_pstate
  = parse_loop (Py.readlines rest ++ [Py.nl; Py.nl])%list
      (mkPstate (Some [("md5", a); ("sha1", b)]) [] empty_item "" 4).
Proof.
  intros La Lb.
  rewrite readlines_line by reflexivity.
  rewrite readlines_line by (now apply no_nl_b64).
  rewrite readlines_line by (now apply no_nl_b64).
  rewrite readlines_line by reflexivity.
  cbn [app parse_loop].
  rewrite parse_line_nl, parse_signature_version. cbn [bind].
  rewrite parse_line_nl, parse_md5_manifest_line by exact La. cbn [bind].
  rewrite parse_line_nl, parse_sha1_manifest_line by exact Lb. cbn [bind].
  change ("" ++ Py.nl) with Py.nl.
  rewrite parse_blank_empty by reflexivity. cbn [bind].
  reflexivity.
Qed.

(** A signature file is parsed back from its text: the digests of the
    manifest come back as they were, and so do the sections, unless the file
    omits them.  The digests of the manifest have at most 36 bytes (those of
    MD5 and SHA-1 have 16 and 20).  When the sections are written they are as
    in the round trip of a manifest: names that the [Name:] header carries,
    digests of MD5 or SHA-1 or both that fit their lines, and as algorithms
    those of the digests. *)
Theorem signature_roundtrip secs a b omit :
  String.length a <= 36 -> String.length b <= 36 ->
  (omit = false -> Forall section_ok secs) ->
  exists secs',
    parse KSignature
      (str_of (mkManifest KSignature secs (Some [("md5", a); ("sha1", b)])
                 (Some omit)))
    = Ok (mkManifest KSignature secs' (Some [("md5", a); ("sha1", b)]) None)
    /\ (if omit then secs' = [] else Forall2 same_section secs' secs).
Proof.
  intros La Lb Hs.
  pose proof (parse_signature_header a b "" La Lb) as H0.
  destruct omit.
  - exists []. split; [|reflexivity].
    unfold parse, parse_input.
    assert (E : str_of (mkManifest KSignature secs
                          (Some [("md5", a); ("sha1", b)]) (Some true))
                = "Signature-Version: 1.0" ++ Py.nl
                  ++ ("MD5-Digest-Manifest: " ++ b64encode a) ++ Py.nl
                  ++ ("SHA1-Digest-Manifest: " ++ b64encode b) ++ Py.nl ++ "").
    { unfold str_of. cbn [klass_of omit_individual_sections
                          attr_omit_individual_sections].
      change (header_of (mkManifest KSignature secs
                           (Some [("md5", a); ("sha1", b)]) (Some true)))
        with (header_of (mkManifest KSignature []
                           (Some [("md5", a); ("sha1", b)]) None)).
      rewrite signature_header_lines, !app_str_assoc. reflexivity. }
    rewrite E.
    rewrite readlines_line by reflexivity.
    rewrite readlines_line by (now apply no_nl_b64).
    rewrite readlines_line by (now apply no_nl_b64).
    cbn [Py.readlines app parse_loop].
    rewrite parse_line_nl, parse_signature_version. cbn [bind].
    rewrite parse_line_nl, parse_md5_manifest_line by exact La. cbn [bind].
    rewrite parse_line_nl, parse_sha1_manifest_line by exact Lb. cbn [bind].
    reflexivity.
  - specialize (Hs eq_refl). exists (map canon secs). split.
    + unfold parse, parse_input.
      assert (E : str_of (mkManifest KSignature secs
                            (Some [("md5", a); ("sha1", b)]) (Some false))
                  = "Signature-Version: 1.0" ++ Py.nl
                    ++ ("MD5-Digest-Manifest: " ++ b64encode a) ++ Py.nl
                    ++ ("SHA1-Digest-Manifest: " ++ b64encode b) ++ Py.nl
                    ++ "" ++ Py.nl ++ Py.join Py.nl (map Section_str secs)).
      { unfold str_of, Manifest_str. cbn [klass_of omit_individual_sections
                            attr_omit_individual_sections].
        change (header_of (mkManifest KSignature secs
                             (Some [("md5", a); ("sha1", b)]) (Some false)))
          with (header_of (mkManifest KSignature []
                             (Some [("md5", a); ("sha1", b)]) None)).
        rewrite signature_header_lines. unfold body. cbn [sections Py.join].
        rewrite !app_str_assoc. reflexivity. }
      rewrite E, parse_signature_header by assumption.
      destruct secs as [|s secs]; [reflexivity|].
      destruct (parse_body (s :: secs) Hs ltac:(discriminate)
                  (mkPstate (Some [("md5", a); ("sha1", b)]) [] empty_item "" 4)
                  eq_refl) as [k ->].
      reflexivity.
    + induction Hs as [|s secs Hs _ IH]; constructor; [|exact IH].
      now apply canon_same.
Qed.

Lemma signature_roundtrip_witness :
  String.length (sample_md5 "m") <= 36 /\ String.length (sample_sha1 "m") <= 36
  /\ (false = false -> Forall section_ok sample_sections)
  /\ exists secs',
       parse KSignature
         (str_of (mkManifest KSignature sample_sections
                    (Some [("md5", sample_md5 "m"); ("sha1", sample_sha1 "m")])
                    (Some false)))
       = Ok (mkManifest KSignature secs'
               (Some [("md5", sample_md5 "m"); ("sha1", sample_sha1 "m")]) None)
       /\ Forall2 same_section secs' sample_sections.
Proof.
  assert (Ha : String.length (sample_md5 "m") <= 36)
    by (apply Nat.leb_le; reflexivity).
  assert (Hb : String.length (sample_sha1 "m") <= 36)
    by (apply Nat.leb_le; reflexivity).
  assert (Hs : false = false -> Forall section_ok sample_sections)
    by (intros _; exact sample_sections_ok).
  repeat (split; [assumption|]).
  exact (signature_roundtrip sample_sections _ _ false Ha Hb Hs).
Defined.

(** ** The serialized section does not depend on the order of the dict *)

Lemma ascii_compare_refl c : Ascii.compare c c = Eq.
Proof. unfold Ascii.compare. apply N.compare_refl. Qed.

Lemma string_compare_trans a : forall b c,
  String.compare a b <> Gt -> String.compare b c <> Gt -> String.compare a c <> Gt.
Proof.
  induction a as [|x a IH]; intros [|y b] [|z c]; cbn [String.compare];
    try congruence.
  destruct (Ascii.compare x y) eqn:Exy; [| |congruence];
    destruct (Ascii.compare y z) eqn:Eyz; try congruence.
  - apply Ascii.compare_eq_iff in Exy, Eyz. subst.
    rewrite ascii_compare_refl. apply IH.
  - apply Ascii.compare_eq_iff in Exy. subst. rewrite Eyz. congruence.
  - apply Ascii.compare_eq_iff in Eyz. subst. rewrite Exy. congruence.
  - unfold Ascii.compare in *. rewrite N.compare_lt_iff in Exy, Eyz.
    assert (H : (N_of_ascii x < N_of_ascii z)%N) by (eapply N.lt_trans; eauto).
    apply N.compare_lt_iff in H. rewrite H. congruence.
Qed.

Lemma leb_true_iff a b : String.leb a b = true <-> String.compare a b <> Gt.
Proof. unfold String.leb. destruct (String.compare a b); split; congruence. Qed.

Lemma leb_trans a b c :
  String.leb a b = true -> String.leb b c = true -> String.leb a c = true.
Proof. rewrite !leb_true_iff. apply string_compare_trans. Qed.

Lemma insert_str_perm x l : Permutation (Py.insert_str x l) (x :: l).
Proof.
  induction l as [|y l IH]; cbn [Py.insert_str]; [reflexivity|].
  destruct (String.leb x y); [reflexivity|]. rewrite IH. apply perm_swap.
Qed.

Lemma sorted_perm l : Permutation (Py.sorted l) l.
Proof.
  induction l as [|x l IH]; cbn [Py.sorted]; [reflexivity|].
  rewrite insert_str_perm. now constructor.
Qed.

Lemma insert_str_sorted x l :
  StronglySorted (fun a b => String.leb a b = true) l ->
  StronglySorted (fun a b => String.leb a b = true) (Py.insert_str x l).
Proof.
  induction 1 as [|y l Hs IH Hall]; cbn [Py.insert_str]; [repeat constructor|].
  destruct (String.leb x y) eqn:E.
  - constructor; [now constructor|]. constructor; [exact E|].
    apply Forall_forall. intros z Hz. rewrite Forall_forall in Hall.
    eapply leb_trans; [exact E|now apply Hall].
  - constructor; [exact IH|]. apply Forall_forall. intros z Hz.
    apply (Permutation_in _ (insert_str_perm x l)) in Hz as [<-|Hz].
    + destruct (String.leb_total x y); congruence.
    + rewrite Forall_forall in Hall. now apply Hall.
Qed.

Lemma sorted_sorted l :
  StronglySorted (fun a b => String.leb a b = true) (Py.sorted l).
Proof.
  induction l as [|x l IH]; cbn [Py.sorted]; [constructor|].
  now apply insert_str_sorted.
Qed.

Lemma sorted_lists_equal l1 : forall l2,
  StronglySorted (fun a b => String.leb a b = true) l1 ->
  StronglySorted (fun a b => String.leb a b = true) l2 ->
  Permutation l1 l2 -> l1 = l2.
Proof.
  induction l1 as [|x l1 IH]; intros l2 H1 H2 Hp.
  - apply Permutation_nil in Hp. now subst.
  - destruct l2 as [|y l2].
    { apply Permutation_sym, Permutation_nil in Hp. discriminate. }
    inversion H1 as [|? ? S1 A1]; inversion H2 as [|? ? S2 A2]; subst.
    rewrite Forall_forall in A1, A2.
    assert (E : x = y).
    { assert (Hx : In x (y :: l2))
        by (eapply Permutation_in; [exact Hp|now left]).
      assert (Hy : In y (x :: l1))
        by (eapply Permutation_in; [symmetry; exact Hp|now left]).
      destruct Hx as [->|Hx]; [reflexivity|].
      destruct Hy as [->|Hy]; [reflexivity|].
      apply String.leb_antisym; [now apply A1|now apply A2]. }
    subst y. f_equal. apply IH; try assumption.
    now apply Permutation_cons_inv in Hp.
Qed.

(** [sorted] gives the same list for every order of its argument. *)
Lemma sorted_of_permutation l1 l2 :
  Permutation l1 l2 -> Py.sorted l1 = Py.sorted l2.
Proof.
  intros H. apply sorted_lists_equal; try apply sorted_sorted.
  rewrite !sorted_perm. exact H.
Qed.

Lemma dict_get_none k d : dict_get k d = None <-> ~ In k (keys d).
Proof.
  induction d as [|[k' v] d IH]; cbn [dict_get keys map fst In]; [tauto|].
  destruct (String.eqb_spec k k') as [->|Hne].
  - split; [discriminate|]. intros H. destruct H. now left.
  - rewrite IH. unfold keys. split; [intros H [E|E]; congruence|tauto].
Qed.

Lemma dict_get_in k v d :
  NoDup (keys d) -> In (k, v) d -> dict_get k d = Some v.
Proof.
  induction d as [|[k' v'] d IH]; cbn [dict_get keys map fst In]; [tauto|].
  intros Hnd [[= -> ->]|Hin].
  - now rewrite String.eqb_refl.
  - inversion Hnd as [|? ? Hn Hnd']; subst.
    destruct (String.eqb_spec k k') as [->|Hne]; [|now apply IH].
    destruct Hn. apply in_map_iff. now exists (k', v).
Qed.

Lemma dict_get_some k v d : dict_get k d = Some v -> In (k, v) d.
Proof.
  induction d as [|[k' v'] d IH]; cbn [dict_get In]; [discriminate|].
  destruct (String.eqb_spec k k') as [->|Hne]; [intros [= ->]; now left|].
  intros H. right. now apply IH.
Qed.

Lemma dict_get_permutation k d1 d2 :
  NoDup (keys d1) -> Permutation d1 d2 -> dict_get k d1 = dict_get k d2.
Proof.
  intros Hnd Hp.
  assert (Hk : Permutation (keys d1) (keys d2)) by now apply Permutation_map.
  assert (Hnd2 : NoDup (keys d2)) by (eapply Permutation_NoDup; eauto).
  destruct (dict_get k d1) as [v|] eqn:E.
  - symmetry. apply dict_get_in; [exact Hnd2|].
    eapply Permutation_in; [exact Hp|]. now apply dict_get_some.
  - symmetry. apply dict_get_none. rewrite dict_get_none in E.
    intros H. apply E. eapply Permutation_in; [symmetry; exact Hk|exact H].
Qed.

(** The text of a section is a function of its name and of the digest of
    each algorithm: neither the order in which the dict of the digests lists
    its keys nor the attribute [algos] shows in it. *)
Theorem Section_str_dict_order n al1 al2 d1 d2 :
  NoDup (keys d1) -> Permutation d1 d2 ->
  Section_str (mkSection n al1 d1) = Section_str (mkSection n al2 d2).
Proof.
  intros Hnd Hp. unfold Section_str. cbn [name digests]. cbv zeta.
  rewrite (sorted_of_permutation (keys d1) (keys d2))
    by (now apply Permutation_map).
  rewrite !(fold_left_app_str
              (fun a => Py.upper a ++ "-Digest: " ++ b64encode (digest_of _ a) ++ Py.nl)).
  f_equal. f_equal. apply map_ext. intros a. unfold digest_of.
  now rewrite (dict_get_permutation a d1 d2 Hnd Hp).
Qed.

Lemma Section_str_dict_order_witness :
  NoDup (keys [("md5", "x"); ("sha1", "y")])
  /\ Permutation [("md5", "x"); ("sha1", "y")] [("sha1", "y"); ("md5", "x")]
  /\ Section_str (mkSection "a" ["md5"; "sha1"] [("md5", "x"); ("sha1", "y")])
     = Section_str (mkSection "a" [] [("sha1", "y"); ("md5", "x")]).
Proof.
  assert (H1 : NoDup (keys [("md5", "x"); ("sha1", "y")])).
  { repeat constructor; simpl; intuition discriminate. }
  assert (H2 : Permutation [("md5", "x"); ("sha1", "y")] [("sha1", "y"); ("md5", "x")])
    by apply perm_swap.
  repeat (split; [assumption|]).
  exact (Section_str_dict_order "a" _ _ _ _ H1 H2).
Defined.

(** ** What a parsed text looks like *)

Lemma parse_line_ok st raw st' :
  parse_line st raw = Ok st' ->
  String.length (Py.rstrip raw) <= 72
  /\ (Py.rstrip raw = "" \/ continuation_re (Py.rstrip raw) <> None
      \/ headers_re (Py.rstrip raw) <> None).
Proof.
  unfold parse_line. destruct (72 <? _)%nat eqn:El; [discriminate|].
  apply Nat.ltb_ge in El. intros H. split; [exact El|].
  destruct (Py.nonempty (Py.rstrip raw)) eqn:En.
  - right. destruct (continuation_re _); [left; discriminate|].
    destruct (headers_re _); [right; discriminate|discriminate].
  - left. now apply nonempty_false.
Qed.

Lemma parse_loop_ok ls : forall st st',
  parse_loop ls st = Ok st' ->
  Forall (fun raw =>
            String.length (Py.rstrip raw) <= 72
            /\ (Py.rstrip raw = "" \/ continuation_re (Py.rstrip raw) <> None
                \/ headers_re (Py.rstrip raw) <> None)) ls.
Proof.
  induction ls as [|l ls IH]; intros st st' H; [constructor|].
  cbn [parse_loop] in H.
  destruct (parse_line st l) as [st1|e] eqn:E; cbn [bind] in H; [|discriminate].
  constructor; [now apply parse_line_ok in E|now apply IH in H].
Qed.

(** A text that [parse] accepts has no line of more than 72 characters
    (trailing white space aside), and each of its lines is blank, a
    continuation, or one of the recognized headers. *)
Theorem parse_ok_lines k buf m :
  parse k buf = Ok m ->
  Forall (fun raw =>
            String.length (Py.rstrip raw) <= 72
            /\ (Py.rstrip raw = "" \/ continuation_re (Py.rstrip raw) <> None
                \/ headers_re (Py.rstrip raw) <> None))
         (Py.readlines buf).
Proof.
  unfold parse, parse_input. intros H.
  destruct (parse_loop _ _) as [st|e] eqn:E; [|discriminate].
  apply parse_loop_ok in E. now apply Forall_app in E.
Qed.

Lemma parse_ok_lines_witness :
  parse KManifest (text ["Name: a"; "Digest-Algorithms: MD5"])
  = Ok (mkManifest KManifest [mkSection "a" ["md5"] []] None None)
  /\ Forall (fun raw => String.length (Py.rstrip raw) <= 72)
       (Py.readlines (text ["Name: a"; "Digest-Algorithms: MD5"])).
Proof.
  split; [reflexivity|].
  eapply Forall_impl;
    [|exact (parse_ok_lines KManifest _ _
               (eq_refl : parse KManifest (text ["Name: a"; "Digest-Algorithms: MD5"])
                          = Ok (mkManifest KManifest [mkSection "a" ["md5"] []]
                                  None None)))].
  intros raw H. exact (proj1 H).
Defined.

(** ** When [make_signed] returns *)

Lemma copy_members_reads zin fl : forall zout zout',
  copy_members zin fl zout = (zout', Ok tt) ->
  Forall (fun f => exists data, zip_read zin (filename f) = Ok data) fl.
Proof.
  induction fl as [|f fl IH]; cbn [copy_members]; intros zout zout' H;
    [constructor|].
  destruct (zip_read zin (filename f)) as [data|e] eqn:E; [|discriminate].
  constructor; [eauto|]. exact (IH _ _ H).
Qed.

(** [make_signed] returns only when a destination is given, nothing exists
    there, the input archive was opened and each of its members was read. *)
Theorem make_signed_returns md5 sha1 osort je sig out fs :
  fst (fst (make_signed md5 sha1 osort je sig out fs)) = Ok tt ->
  exists p zin,
    truthy_path (path_or out (outpath je)) = Some p
    /\ path_exists p fs = false
    /\ ZipFile_read fs (inpath je) = Ok zin
    /\ Forall (fun f => exists data, zip_read zin (filename f) = Ok data)
         (osort (filelist zin)).
Proof.
  unfold make_signed.
  destruct (truthy_path _) as [p|]; [|discriminate].
  destruct (path_exists p fs) eqn:Ex; [discriminate|].
  destruct (ZipFile_read fs (inpath je)) as [zin|e]; [|discriminate].
  destruct (copy_members zin (osort (filelist zin)) _) as [zout [[]|e]] eqn:Ec.
  - intros _. exists p, zin. repeat split; auto.
    exact (copy_members_reads _ _ _ _ Ec).
  - discriminate.
Qed.

Lemma make_signed_returns_witness :
  fst (fst (make_signed sample_md5 sample_sha1 sample_order sample_extractor
              "sig" (Some "out.xpi") sample_fs)) = Ok tt
  /\ exists p, truthy_path (path_or (Some "out.xpi") (outpath sample_extractor)) = Some p
               /\ path_exists p sample_fs = false.
Proof.
  split; [reflexivity|].
  destruct (make_signed_returns sample_md5 sample_sha1 sample_order sample_extractor
              "sig" (Some "out.xpi") sample_fs eq_refl) as (p & zin & Hp & He & _).
  exists p. split; [exact Hp|exact He].
Defined.

(** ** Header names in any letter case *)

Lemma lower_no_space c d :
  Py.lower_ascii c = d -> Py.is_space d = false -> Py.is_space c = false.
Proof.
  intros <-. destruct c as [[] [] [] [] [] [] [] []]; cbv; congruence.
Qed.

Lemma rstrip_colon v : Py.rstrip (String ":" v) = String ":" (Py.rstrip v).
Proof. cbn [Py.rstrip]. now destruct (Py.rstrip v). Qed.

(** The characters of a string whose lower-cased form is known *)
Ltac split_header H p :=
  repeat (destruct p as [|? p]; [discriminate H|];
          cbn [Py.lower Py.smap] in H;
          let E := fresh "E" in
          injection H as E H);
  destruct p; [clear H|discriminate H].

Lemma headers_re_case a p v :
  In a headers_re_names -> Py.lower p = Py.lower a ->
  headers_re (p ++ String ":" v) = Some (p, Py.dot_star (Py.skip_ws v))
  /\ continuation_re (p ++ String ":" v) = None
  /\ Py.rstrip (p ++ String ":" v) = p ++ String ":" (Py.rstrip v)
  /\ String.length p = String.length a.
Proof.
  intros Ha H. cbn [headers_re_names In] in Ha.
  assert (Hr : Py.rstrip (p ++ String ":" v) = p ++ String ":" (Py.rstrip v)).
  { rewrite rstrip_app, rstrip_colon. reflexivity. }
  assert (Hl : String.length p = String.length a).
  { apply (f_equal String.length) in H. clear -H. unfold Py.lower in H.
    assert (L : forall f s, String.length (Py.smap f s) = String.length s)
      by (intros f s; induction s; simpl; congruence).
    now rewrite !L in H. }
  split; [|split; [|split; assumption]].
  - unfold headers_re, headers_re_names.
    repeat destruct Ha as [<-|Ha]; try contradiction;
      match type of H with
      | _ = Py.lower ?a =>
          let r := eval vm_compute in (Py.lower a) in
          change (Py.lower a) with r in H
      end;
      split_header H p;
      cbn [headers_re_try match_nocase append];
      repeat match goal with
             | E : Py.lower_ascii ?c = _ |- _ => rewrite E; clear E
             end;
      reflexivity.
  - destruct p as [|c p]; [destruct a; [|discriminate]; repeat destruct Ha as [Ha|Ha]; discriminate || contradiction|].
    destruct a as [|d a]; [discriminate|].
    cbn [Py.lower Py.smap] in H. injection H as Hc _.
    assert (Hs : Py.is_space c = false).
    { apply (lower_no_space c _ Hc).
      repeat destruct Ha as [Ha|Ha]; try contradiction;
        injection Ha as <- _; reflexivity. }
    cbn [append continuation_re].
    destruct c as [[] [] [] [] [] [] [] []]; try reflexivity; discriminate Hs.
Qed.

Lemma nonempty_app_colon p v : Py.nonempty (p ++ String ":" v) = true.
Proof. now destruct p. Qed.

(** A header line is read alike in any letter case of the header name:
    [NAME: x] and [name: x] are [Name: x]. *)
Theorem header_any_case a p v st :
  In a headers_re_names -> Py.lower p = Py.lower a ->
  parse_line st (p ++ String ":" v) = parse_line st (a ++ String ":" v).
Proof.
  intros Ha H.
  destruct (headers_re_case a p v Ha H) as (_ & _ & Rp & Lp).
  destruct (headers_re_case a a v Ha eq_refl) as (_ & _ & Ra & _).
  destruct (headers_re_case a p (Py.rstrip v) Ha H) as (Hp & Cp & _ & _).
  destruct (headers_re_case a a (Py.rstrip v) Ha eq_refl) as (Hh & Ch & _ & _).
  unfold parse_line. rewrite Rp, Ra, !length_app, Lp, !nonempty_app_colon.
  rewrite Hp, Hh, Cp, Ch. unfold parse_header. now rewrite H.
Qed.

Lemma header_any_case_witness :
  In "Digest-Algorithms" headers_re_names
  /\ Py.lower "DIGEST-algorithms" = Py.lower "Digest-Algorithms"
  /\ parse_line init_pstate ("DIGEST-algorithms" ++ String ":" " MD5")
     = parse_line init_pstate ("Digest-Algorithms" ++ String ":" " MD5").
Proof.
  assert (H1 : In "Digest-Algorithms" headers_re_names)
    by (right; right; right; now left).
  assert (H2 : Py.lower "DIGEST-algorithms" = Py.lower "Digest-Algorithms")
    by reflexivity.
  repeat (split; [assumption|]).
  exact (header_any_case _ _ " MD5" init_pstate H1 H2).
Defined.
